(** * agents/utils.py: the guarded executor [safe_run] and the logger
      facade [user_log]

    A shallow embedding of the two functions of [agents/utils.py] and the
    properties of their permission check, failure propagation and log
    routing.

    Conventions of the model.
    - A Python [str] is a [string]; a character stands for a code point in
      U+0000..U+00FF, on which [str.lower], [str.strip] and [str.split]
      are written out below as CPython defines them.
    - [os.environ] is a finite map from names to values.
    - What the functions do to the outside world (reading the environment,
      calling a logger method, calling [subprocess.run], printing) is
      recorded, in order, in a trace of events; a call yields its trace and
      either a returned value or a raised exception. *)

From stdpp Require Import base decidable option list strings gmap pretty.
From Stdlib Require Import Ascii String ZArith Lia.

Local Open Scope string_scope.
Local Open Scope list_scope.

(** ** Python string primitives *)

(** [str.isspace] on one character: TAB, LF, VT, FF, CR, the four
    separators U+001C..U+001F, SPACE, NEL (U+0085) and NBSP (U+00A0). *)
Definition is_space (a : ascii) : bool :=
  let n := N_of_ascii a in
  ((9 <=? n) && (n <=? 13) || (28 <=? n) && (n <=? 32)
   || (n =? 133) || (n =? 160))%N.

(** [str.lower] on one character: A..Z and the Latin-1 capitals
    U+00C0..U+00DE (but not the multiplication sign U+00D7) move up by 32. *)
Definition lower_char (a : ascii) : ascii :=
  let n := N_of_ascii a in
  if ((65 <=? n) && (n <=? 90)
      || (192 <=? n) && (n <=? 222) && negb (n =? 215))%N
  then ascii_of_N (n + 32) else a.

(** [s.lower()] *)
Fixpoint py_lower (s : string) : string :=
  match s with
  | EmptyString => EmptyString
  | String a s' => String (lower_char a) (py_lower s')
  end.

(** [s.lstrip()], [s.rstrip()] and [s.strip()] *)
Fixpoint py_lstrip (s : string) : string :=
  match s with
  | EmptyString => EmptyString
  | String a s' => if is_space a then py_lstrip s' else s
  end.

Fixpoint py_rstrip (s : string) : string :=
  match s with
  | EmptyString => EmptyString
  | String a s' =>
      match py_rstrip s' with
      | EmptyString => if is_space a then EmptyString else String a EmptyString
      | r => String a r
      end
  end.

Definition py_strip (s : string) : string := py_rstrip (py_lstrip s).

(** [s.split(sep)] for a one-character separator: every occurrence of
    [sep] cuts, empty pieces are kept, and the empty string gives [['']]. *)
Fixpoint py_split_on (sep : ascii) (s : string) : list string :=
  match s with
  | EmptyString => [EmptyString]
  | String a s' =>
      if Ascii.eqb a sep then EmptyString :: py_split_on sep s'
      else match py_split_on sep s' with
           | [] => [String a EmptyString]
           | piece :: pieces => String a piece :: pieces
           end
  end.

(** [s.split()]: the maximal runs of non-whitespace characters, in order;
    no empty token, and [[]] for a string with no such run. *)
Fixpoint py_split (s : string) : list string :=
  match s with
  | EmptyString => []
  | String a s' =>
      if is_space a then py_split s'
      else match s' with
           | EmptyString => [String a EmptyString]
           | String b _ =>
               if is_space b then String a EmptyString :: py_split s'
               else match py_split s' with
                    | [] => [String a EmptyString]
                    | tok :: toks => String a tok :: toks
                    end
           end
  end.

(** [sep.join(l)] *)
Fixpoint py_join (sep : string) (l : list string) : string :=
  match l with
  | [] => EmptyString
  | [x] => x
  | x :: l' => x +:+ sep +:+ py_join sep l'
  end.

(** Truth value of a string: non-empty. *)
Definition py_truthy (s : string) : bool :=
  match s with EmptyString => false | String _ _ => true end.

(** ** Data model *)

(** A command is a single string or an argument vector. *)
Inductive command : Type :=
| CmdStr (s : string)
| CmdList (argv : list string).

(** The five methods of the logger. *)
Inductive severity : Type := Debug | Info | Warning | Error | Critical.

(** The two console streams. *)
Inductive stream : Type := Stdout | Stderr.

(** [subprocess.CompletedProcess]: the command, its exit code and the
    captured streams ([None] when not captured). *)
Record CompletedProcess : Type := mkCompleted {
  args : command;
  returncode : Z;
  stdout : option string;
  stderr : option string
}.

(** The exceptions a call can end with. [PermissionError] and
    [IndexError] are the ones the permission check of [safe_run] raises;
    [CalledProcessError] is [subprocess.run]'s report of a non-zero exit
    under [check]; [SpawnError] stands for whatever the host raises when
    it cannot create the process, with its text. A refusal by the
    operating system is a [SpawnError] here, whatever its Python class, so
    that [PermissionError] is always the refusal of line 64. *)
Inductive exn : Type :=
| PermissionError (msg : string)
| IndexError (msg : string)
| CalledProcessError (rc : Z) (cmd : command) (output err : option string)
| SpawnError (msg : string).

(** What is observable of a call, in order. [EvSpawn] is the call of
    [subprocess.run] with its arguments; [EvPrint] is a [print] of the
    text to the stream (which ends the line). *)
Inductive event : Type :=
| EvEnvGet (name : string)
| EvLog (lvl : severity) (line : string)
| EvSpawn (cmd : command) (check capture_output text shell : bool)
| EvPrint (out : stream) (line : string).

Inductive outcome (A : Type) : Type :=
| Return (a : A)
| Raise (e : exn).
Arguments Return {A} a.
Arguments Raise {A} e.

(** A computation: the events it performed and how it ended. *)
Definition M (A : Type) : Type := (list event * outcome A)%type.

Definition ret {A} (a : A) : M A := ([], Return a).

Definition raise {A} (e : exn) : M A := ([], Raise e).

Definition emit (ev : event) : M unit := ([ev], Return tt).

Definition bind {A B} (m : M A) (k : A -> M B) : M B :=
  match m with
  | (tr, Return a) => let '(tr', r) := k a in (tr ++ tr', r)
  | (tr, Raise e) => (tr, Raise e)
  end.

(** [try: m  except ... as e: h e] *)
Definition try_except {A} (m : M A) (h : exn -> M A) : M A :=
  match m with
  | (tr, Raise e) => let '(tr', r) := h e in (tr ++ tr', r)
  | (tr, Return a) => (tr, Return a)
  end.

Notation "x <- m ;; k" := (bind m (fun x => k))
  (at level 100, m at next level, k at level 200, right associativity,
   only parsing).
Notation "m ;;; k" := (bind m (fun _ => k))
  (at level 100, k at level 200, right associativity, only parsing).

Definition trace {A} (m : M A) : list event := fst m.
Definition result {A} (m : M A) : outcome A := snd m.

(** ** The environment *)

Abbreviation environ := (gmap string string).

(** [os.environ.get(name, default)], recorded in the trace. *)
Definition environ_get (env : environ) (name dflt : string) : M string :=
  emit (EvEnvGet name) ;;; ret (default dflt (env !! name)).

(** ** The guarded executor *)

(** [cmd_list[0]]: the first element, or [IndexError] on an empty list. *)
Definition subscript0 (l : list string) : M string :=
  match l with
  | [] => raise (IndexError "list index out of range")
  | x :: _ => ret x
  end.

(** [[c.strip() for c in allowed_commands.split(",") if c.strip()]] *)
Definition allowed_list_of (allowed_commands : string) : list string :=
  map py_strip
      (filter (fun c => py_truthy (py_strip c) = true)
              (py_split_on "," allowed_commands)).

(** The text of the [PermissionError] of line 64. *)
Definition permission_message (cmd_name : string) : string :=
  "Shell execution not allowed. Set ALLOW_SHELL=true or add '" +:+ cmd_name
  +:+ "' to ALLOWED_SHELL_COMMANDS environment variable.".

(** [cmd if isinstance(cmd, str) else " ".join(cmd)] *)
Definition cmd_str_of (cmd : command) : string :=
  match cmd with
  | CmdStr s => s
  | CmdList argv => py_join " " argv
  end.

(** The permission block of [safe_run] (lines 52-67). *)
Definition check_shell_permission (env : environ) (cmd : command)
    (shell : bool) : M unit :=
  if shell then
    allow_raw <- environ_get env "ALLOW_SHELL" EmptyString ;;
    let allow_shell := bool_decide (py_lower allow_raw = "true") in
    if negb allow_shell then
      allowed_commands <-
        environ_get env "ALLOWED_SHELL_COMMANDS" EmptyString ;;
      let allowed_list := allowed_list_of allowed_commands in
      cmd_name <- match cmd with
                  | CmdStr s => subscript0 (py_split s)
                  | CmdList _ => ret EmptyString
                  end ;;
      if bool_decide (cmd_name ∉ allowed_list)
      then raise (PermissionError (permission_message cmd_name))
      else ret tt
    else ret tt
  else ret tt.

(** What the host answers to a request to run a command: the process ran
    and exited, or it could not be created. *)
Inductive host_result : Type :=
| Exited (rc : Z) (out err : option string)
| SpawnFailed (msg : string).

Section Executor.

(** The extra keyword arguments forwarded to [subprocess.run]. *)
Context {Kw : Type}.

(** The host platform's process-spawning primitive. *)
Variable host_spawn :
  environ -> command -> bool -> bool -> bool -> Kw -> host_result.

(** [subprocess.run(cmd, check=.., capture_output=.., text=.., shell=..,
    **kwargs)], as the standard library documents it: a non-zero exit
    under [check] is raised as [CalledProcessError]. *)
Definition subprocess_run (env : environ) (cmd : command)
    (check capture_output text shell : bool) (kwargs : Kw)
    : M CompletedProcess :=
  emit (EvSpawn cmd check capture_output text shell) ;;;
  match host_spawn env cmd capture_output text shell kwargs with
  | SpawnFailed msg => raise (SpawnError msg)
  | Exited rc out err =>
      if check && negb (rc =? 0)%Z
      then raise (CalledProcessError rc cmd out err)
      else ret (mkCompleted cmd rc out err)
  end.

(** The rest of [safe_run] (lines 69-89): trace, run, trace, and the two
    handlers, which log and re-raise. *)
Definition run_logged (env : environ) (cmd : command)
    (check capture_output text shell : bool) (kwargs : Kw)
    : M CompletedProcess :=
  let cmd_str := cmd_str_of cmd in
  emit (EvLog Debug ("Executing: " +:+ cmd_str)) ;;;
  try_except
    (result <- subprocess_run env cmd check capture_output text shell kwargs ;;
     emit (EvLog Debug ("Command completed with return code: "
                        +:+ pretty (returncode result))) ;;;
     ret result)
    (fun e =>
       match e with
       | CalledProcessError rc _ _ _ =>
           emit (EvLog Error ("Command failed with return code "
                              +:+ pretty rc +:+ ": " +:+ cmd_str)) ;;;
           raise e
       | PermissionError msg | IndexError msg | SpawnError msg =>
           emit (EvLog Error ("Unexpected error running command: " +:+ msg)) ;;;
           raise e
       end).

(** [safe_run(cmd, check, capture_output, text, shell, **kwargs)] *)
Definition safe_run (env : environ) (cmd : command)
    (check capture_output text shell : bool) (kwargs : Kw)
    : M CompletedProcess :=
  check_shell_permission env cmd shell ;;;
  run_logged env cmd check capture_output text shell kwargs.

End Executor.

(** A host on which [echo] succeeds, [false] exits with 1 and anything else
    cannot be found. *)
Definition demo_host (_ : environ) (cmd : command)
    (capture_output _ _ : bool) (_ : unit) : host_result :=
  match py_split (cmd_str_of cmd) with
  | "echo" :: rest =>
      Exited 0 (if capture_output then Some (py_join " " rest) else None)
             (if capture_output then Some EmptyString else None)
  | "false" :: _ =>
      Exited 1 (if capture_output then Some EmptyString else None)
             (if capture_output then Some EmptyString else None)
  | _ => SpawnFailed "[Errno 2] No such file or directory"
  end.

(** ** The logger facade *)

(** The table [log_methods] of [user_log]: level name to logger method. *)
Definition log_methods : gmap string severity :=
  {[ "debug" := Debug; "info" := Info; "warning" := Warning;
     "error" := Error; "critical" := Critical ]}.

Section Logger.

(** The values of the keyword context and their rendering by an
    f-string, [f"{v}"]. *)
Context {V : Type}.
Variable py_format : V -> string.

(** [" | ".join(f"{k}={v}" for k, v in kwargs.items())] *)
Definition extra_context_of (kwargs : list (string * V)) : string :=
  py_join " | " (map (fun kv => fst kv +:+ "=" +:+ py_format (snd kv)) kwargs).

(** [user_log(message, level, stderr, **kwargs)]; the keyword context is
    the list of its items in insertion order. *)
Definition user_log (env : environ) (message level : string)
    (stderr : bool) (kwargs : list (string * V)) : M unit :=
  let log_method := default Info (log_methods !! py_lower level) in
  let full_message :=
    match kwargs with
    | [] => message
    | _ :: _ => message +:+ " [" +:+ extra_context_of kwargs +:+ "]"
    end in
  emit (EvLog log_method full_message) ;;;
  log_to_stdout <- environ_get env "LOG_TO_STDOUT" EmptyString ;;
  if bool_decide (py_lower log_to_stdout = "true") then
    let output :=
      if stderr || bool_decide (py_lower level ∈ ["error"; "critical"])
      then Stderr else Stdout in
    emit (EvPrint output full_message)
  else ret tt.

End Logger.

(** ** Observations on a trace *)

Definition is_spawn (ev : event) : bool :=
  match ev with EvSpawn _ _ _ _ _ => true | _ => false end.

(** A call of [subprocess.run] with [shell=True]. *)
Definition is_shell_spawn (ev : event) : bool :=
  match ev with EvSpawn _ _ _ _ shell => shell | _ => false end.

Definition is_env_get (name : string) (ev : event) : bool :=
  match ev with EvEnvGet n => bool_decide (n = name) | _ => false end.

Definition spawned (tr : list event) : bool := existsb is_spawn tr.

Definition consulted (name : string) (tr : list event) : bool :=
  existsb (is_env_get name) tr.

(** The console output of a trace: stream and text of each [print]. *)
Fixpoint console (tr : list event) : list (stream * string) :=
  match tr with
  | [] => []
  | EvPrint out line :: tr' => (out, line) :: console tr'
  | _ :: tr' => console tr'
  end.

(** The logger calls of a trace: method and line of each. *)
Fixpoint dispatched (tr : list event) : list (severity * string) :=
  match tr with
  | [] => []
  | EvLog lvl line :: tr' => (lvl, line) :: dispatched tr'
  | _ :: tr' => dispatched tr'
  end.

Definition is_permission_error {A} (r : outcome A) : bool :=
  match r with Raise (PermissionError _) => true | _ => false end.

(** ** The execution policy, in the words of the specification *)

(** The value of an environment variable, empty when unset. *)
Definition env_value (env : environ) (name : string) : string :=
  default EmptyString (env !! name).

(** Shell use is allowed globally: [ALLOW_SHELL] lowercases to ["true"]. *)
Definition allow_shell_globally (env : environ) : Prop :=
  py_lower (env_value env "ALLOW_SHELL") = "true".

(** The permitted command names: the non-empty trimmed entries of
    [ALLOWED_SHELL_COMMANDS]. *)
Definition allowed_names (env : environ) : list string :=
  allowed_list_of (env_value env "ALLOWED_SHELL_COMMANDS").

(** The name the policy looks up: the first whitespace-delimited token of
    a string command (none if it has no token), the empty name for a
    list. *)
Definition extracted_name (cmd : command) : option string :=
  match cmd with
  | CmdStr s => head (py_split s)
  | CmdList _ => Some EmptyString
  end.

(** The policy check authorizes shell execution of [cmd]. *)
Definition shell_authorized (env : environ) (cmd : command) : Prop :=
  allow_shell_globally env \/
  exists name, extracted_name cmd = Some name /\ name ∈ allowed_names env.

Abbreviation ALLOW := (EvEnvGet "ALLOW_SHELL").
Abbreviation ALLOWED := (EvEnvGet "ALLOWED_SHELL_COMMANDS").

(** The four ways a call with [shell=True] can go. *)
Inductive shell_call (env : environ) (cmd : command)
    (run call : M CompletedProcess) : Prop :=
| call_allowed :
    allow_shell_globally env ->
    call = ([ALLOW] ++ trace run, result run) ->
    shell_call env cmd run call
| call_listed name :
    ~ allow_shell_globally env ->
    extracted_name cmd = Some name ->
    name ∈ allowed_names env ->
    call = ([ALLOW; ALLOWED] ++ trace run, result run) ->
    shell_call env cmd run call
| call_denied name :
    ~ allow_shell_globally env ->
    extracted_name cmd = Some name ->
    name ∉ allowed_names env ->
    call = ([ALLOW; ALLOWED],
            Raise (PermissionError (permission_message name))) ->
    shell_call env cmd run call
| call_no_name :
    ~ allow_shell_globally env ->
    extracted_name cmd = None ->
    call = ([ALLOW; ALLOWED], Raise (IndexError "list index out of range")) ->
    shell_call env cmd run call.

(** A string made of whitespace only (the empty string included). *)
Fixpoint all_space (s : string) : bool :=
  match s with
  | EmptyString => true
  | String a s' => is_space a && all_space s'
  end.

(** [needle in s] for strings. *)
Definition py_contains (needle s : string) : Prop :=
  exists pre post, s = pre +:+ needle +:+ post.

(** The resolved severity is [error] or [critical]. *)
Definition is_failure_level (lvl : severity) : bool :=
  match lvl with Error | Critical => true | _ => false end.

(** The line [user_log] builds, in the words of the specification: the
    pairs [key=value], the first as it is and each later one after a
    [" | "]. *)
Fixpoint pairs_after {V} (fmt : V -> string) (kvs : list (string * V))
    : string :=
  match kvs with
  | [] => EmptyString
  | (k, v) :: kvs' => " | " +:+ k +:+ "=" +:+ fmt v +:+ pairs_after fmt kvs'
  end.

Definition context_line {V} (fmt : V -> string) (message : string)
    (kvs : list (string * V)) : string :=
  match kvs with
  | [] => message
  | (k, v) :: kvs' =>
      message +:+ " " +:+ "["
      +:+ (k +:+ "=" +:+ fmt v +:+ pairs_after fmt kvs') +:+ "]"
  end.

(** ** Further observations *)

(** The string has a whitespace character. *)
Fixpoint has_space (s : string) : bool :=
  match s with
  | EmptyString => false
  | String a s' => is_space a || has_space s'
  end.

(** The string has the character [c]. *)
Fixpoint has_char (c : ascii) (s : string) : bool :=
  match s with
  | EmptyString => false
  | String a s' => Ascii.eqb a c || has_char c s'
  end.

(** [s.startswith(prefix)] as a proposition. *)
Definition py_startswith (prefix s : string) : Prop :=
  exists post, s = prefix +:+ post.

(** The number of calls of [subprocess.run] in a trace. *)
Definition spawn_count (tr : list event) : nat :=
  List.length (filter (fun ev => is_spawn ev = true) tr).

Definition is_any_env_get (ev : event) : bool :=
  match ev with EvEnvGet _ => true | _ => false end.

(** ** The callers of [safe_run] and [user_log] *)

(** The keyword values the agent modules pass to [user_log]: strings,
    integers and booleans, rendered as an f-string renders them. *)
Inductive pyval : Type :=
| VStr (s : string)
| VInt (z : Z)
| VBool (b : bool).

Definition py_format_val (v : pyval) : string :=
  match v with
  | VStr s => s
  | VInt z => pretty z
  | VBool true => "True"
  | VBool false => "False"
  end.

(** [for x in l: body x] *)
Fixpoint for_each {A} (l : list A) (body : A -> M unit) : M unit :=
  match l with
  | [] => ret tt
  | x :: l' => body x ;;; for_each l' body
  end.

(** Truth value of [None] or a string: a non-empty string. *)
Definition py_truthy_opt (o : option string) : bool :=
  match o with
  | Some s => py_truthy s
  | None => false
  end.

Section Callers.

(** The host, for calls without extra keyword arguments. *)
Variable host_spawn :
  environ -> command -> bool -> bool -> bool -> unit -> host_result.

(** [str(e)] of a [CalledProcessError], from its code and command. *)
Variable called_process_str : Z -> command -> string.

(** [f"{e}"] for an exception. *)
Definition exn_str (e : exn) : string :=
  match e with
  | PermissionError msg | IndexError msg | SpawnError msg => msg
  | CalledProcessError rc cmd _ _ => called_process_str rc cmd
  end.

(** [metrics_dashboard.collect_metrics()] *)
Definition collect_metrics (env : environ) : M (option string) :=
  user_log py_format_val env "Starting metrics collection..." "info" false
           [] ;;;
  try_except
    (result <- safe_run host_spawn env
                        (CmdList ["git"; "log"; "--oneline"; "-n"; "10"])
                        true true true false tt ;;
     user_log py_format_val env "Metrics collected successfully" "info" false
              [("count", VInt 10)] ;;;
     ret (stdout result))
    (fun e =>
       user_log py_format_val env
                ("Failed to collect metrics: " +:+ exn_str e) "error" false
                [] ;;;
       ret None).

(** [metrics_dashboard.display_dashboard()] *)
Definition display_dashboard (env : environ) : M unit :=
  user_log py_format_val env "Displaying metrics dashboard..." "info" false
           [] ;;;
  metrics <- collect_metrics env ;;
  if py_truthy_opt metrics
  then user_log py_format_val env "Dashboard ready" "info" false []
  else user_log py_format_val env "Dashboard unavailable" "warning" false [].

(** [validation_framework.run_validation_suite()] *)
Definition run_validation_suite (env : environ) : M bool :=
  user_log py_format_val env "Running validation suite..." "info" false [] ;;;
  try_except
    (result <- safe_run host_spawn env (CmdList ["python3"; "--version"])
                        true true true false tt ;;
     user_log py_format_val env "Validation suite completed" "info" false
              [] ;;;
     ret true)
    (fun e =>
       user_log py_format_val env
                ("Validation suite failed: " +:+ exn_str e) "error" false
                [] ;;;
       ret false).

(** [task_accelerator.accelerate_tasks(task_list)] *)
Definition accelerate_tasks (env : environ) (task_list : list pyval)
    : M bool :=
  user_log py_format_val env "Accelerating tasks..." "info" false
           [("count", VInt (Z.of_nat (List.length task_list)))] ;;;
  try_except
    (for_each task_list
       (fun task =>
          user_log py_format_val env
                   ("Accelerating task: " +:+ py_format_val task) "debug"
                   false []) ;;;
     user_log py_format_val env "All tasks accelerated" "info" false [] ;;;
     ret true)
    (fun e =>
       user_log py_format_val env
                ("Task acceleration failed: " +:+ exn_str e) "error" false
                [] ;;;
       ret false).

End Callers.

(** ** Worked examples *)

Example py_lower_mixed : py_lower "TrUe" = "true".
Proof. reflexivity. Qed.

Example py_split_on_commas :
  py_split_on "," " a, ,b,," = [" a"; " "; "b"; EmptyString; EmptyString].
Proof. reflexivity. Qed.

Example py_split_on_empty : py_split_on "," EmptyString = [EmptyString].
Proof. reflexivity. Qed.

Example py_split_words : py_split "  rm -rf   / " = ["rm"; "-rf"; "/"].
Proof. reflexivity. Qed.

Example py_split_blank : py_split "   " = [].
Proof. reflexivity. Qed.

Example py_strip_both : py_strip "  ls -l  " = "ls -l".
Proof. reflexivity. Qed.

Example py_join_three : py_join " " ["echo"; "a"; "b"] = "echo a b".
Proof. reflexivity. Qed.

Example run_echo_allowed :
  safe_run demo_host {[ "ALLOWED_SHELL_COMMANDS" := "echo,ls,pwd" ]}
           (CmdStr "echo test") true true true true tt
  = ([EvEnvGet "ALLOW_SHELL"; EvEnvGet "ALLOWED_SHELL_COMMANDS";
      EvLog Debug "Executing: echo test";
      EvSpawn (CmdStr "echo test") true true true true;
      EvLog Debug "Command completed with return code: 0"],
     Return (mkCompleted (CmdStr "echo test") 0 (Some "test")
                         (Some EmptyString))).
Proof. vm_compute. reflexivity. Qed.

Example run_rm_denied :
  safe_run demo_host {[ "ALLOWED_SHELL_COMMANDS" := "echo,ls" ]}
           (CmdStr "rm -rf /") true false true true tt
  = ([EvEnvGet "ALLOW_SHELL"; EvEnvGet "ALLOWED_SHELL_COMMANDS"],
     Raise (PermissionError (permission_message "rm"))).
Proof. vm_compute. reflexivity. Qed.

Example log_task_completed :
  user_log id ∅ "Task completed" "info" false
           [("task_id", "123"); ("status", "success")]
  = ([EvLog Info "Task completed [task_id=123 | status=success]";
      EvEnvGet "LOG_TO_STDOUT"], Return tt).
Proof. vm_compute. reflexivity. Qed.

Example log_error_mirrored :
  user_log id {[ "LOG_TO_STDOUT" := "TRUE" ]} "Disk full" "ERROR" false []
  = ([EvLog Error "Disk full"; EvEnvGet "LOG_TO_STDOUT";
      EvPrint Stderr "Disk full"], Return tt).
Proof. vm_compute. reflexivity. Qed.

Example log_info_mirrored :
  user_log id {[ "LOG_TO_STDOUT" := "true" ]} "Started" "info" false []
  = ([EvLog Info "Started"; EvEnvGet "LOG_TO_STDOUT";
      EvPrint Stdout "Started"], Return tt).
Proof. vm_compute. reflexivity. Qed.

(** ** Facts about the string primitives *)

Lemma append_assoc (s1 s2 s3 : string) :
  (s1 +:+ s2) +:+ s3 = s1 +:+ (s2 +:+ s3).
Proof.
  induction s1 as [|a s1 IH]; [reflexivity|].
  change (String a ((s1 +:+ s2) +:+ s3) = String a (s1 +:+ (s2 +:+ s3))).
  now rewrite IH.
Qed.

Lemma append_empty_r (s : string) : s +:+ EmptyString = s.
Proof.
  induction s as [|a s IH]; [reflexivity|].
  change (String a (s +:+ EmptyString) = String a s). now rewrite IH.
Qed.

Lemma py_split_all_space (s : string) :
  all_space s = true -> py_split s = [].
Proof.
  induction s as [|a s IH]; simpl; [reflexivity|].
  intros [Ha Hs]%andb_prop. rewrite Ha. auto.
Qed.

Lemma py_split_nil_all_space (s : string) :
  py_split s = [] -> all_space s = true.
Proof.
  induction s as [|a s IH]; simpl; [reflexivity|].
  destruct (is_space a); simpl; [exact IH|].
  destruct s as [|b s']; [discriminate|].
  destruct (is_space b); [discriminate|].
  destruct (py_split (String b s')); discriminate.
Qed.

Lemma allowed_list_of_no_empty (allowed_commands : string) :
  EmptyString ∉ allowed_list_of allowed_commands.
Proof.
  unfold allowed_list_of.
  intros (c & Hc & Hin)%list_elem_of_fmap.
  apply list_elem_of_filter in Hin as [Htruthy _].
  rewrite <- Hc in Htruthy. discriminate.
Qed.

Lemma allowed_names_unset (env : environ) :
  env !! "ALLOWED_SHELL_COMMANDS" = None -> allowed_names env = [].
Proof.
  intros H. unfold allowed_names, env_value. rewrite H. reflexivity.
Qed.

Lemma allow_shell_unset (env : environ) :
  env !! "ALLOW_SHELL" = None -> ~ allow_shell_globally env.
Proof.
  intros H. unfold allow_shell_globally, env_value. rewrite H. discriminate.
Qed.

(** ** The permission block, case by case *)

Lemma check_no_shell env cmd :
  check_shell_permission env cmd false = ([], Return tt).
Proof. reflexivity. Qed.

Lemma check_allow env cmd :
  allow_shell_globally env ->
  check_shell_permission env cmd true = ([EvEnvGet "ALLOW_SHELL"], Return tt).
Proof.
  intros H. unfold check_shell_permission, environ_get. simpl.
  fold (env_value env "ALLOW_SHELL").
  rewrite (bool_decide_eq_true_2 _ H). reflexivity.
Qed.

Lemma check_listed env cmd name :
  ~ allow_shell_globally env ->
  extracted_name cmd = Some name ->
  name ∈ allowed_names env ->
  check_shell_permission env cmd true
  = ([EvEnvGet "ALLOW_SHELL"; EvEnvGet "ALLOWED_SHELL_COMMANDS"], Return tt).
Proof.
  intros Hno Hname Hin. unfold check_shell_permission, environ_get. simpl.
  fold (env_value env "ALLOW_SHELL").
  rewrite (bool_decide_eq_false_2 _ Hno). simpl.
  fold (env_value env "ALLOWED_SHELL_COMMANDS"). fold (allowed_names env).
  destruct cmd as [s|argv]; simpl in Hname.
  - destruct (py_split s) as [|tok toks]; [discriminate|].
    injection Hname as ->. simpl.
    rewrite bool_decide_eq_false_2; [reflexivity|]. intros Hn. exact (Hn Hin).
  - injection Hname as <-. simpl.
    rewrite bool_decide_eq_false_2; [reflexivity|]. intros Hn. exact (Hn Hin).
Qed.

Lemma check_denied env cmd name :
  ~ allow_shell_globally env ->
  extracted_name cmd = Some name ->
  name ∉ allowed_names env ->
  check_shell_permission env cmd true
  = ([EvEnvGet "ALLOW_SHELL"; EvEnvGet "ALLOWED_SHELL_COMMANDS"],
     Raise (PermissionError (permission_message name))).
Proof.
  intros Hno Hname Hin. unfold check_shell_permission, environ_get. simpl.
  fold (env_value env "ALLOW_SHELL").
  rewrite (bool_decide_eq_false_2 _ Hno). simpl.
  fold (env_value env "ALLOWED_SHELL_COMMANDS"). fold (allowed_names env).
  destruct cmd as [s|argv]; simpl in Hname.
  - destruct (py_split s) as [|tok toks]; [discriminate|].
    injection Hname as ->. simpl.
    rewrite (bool_decide_eq_true_2 _ Hin). reflexivity.
  - injection Hname as <-. simpl.
    rewrite (bool_decide_eq_true_2 _ Hin). reflexivity.
Qed.

Lemma check_no_name env cmd :
  ~ allow_shell_globally env ->
  extracted_name cmd = None ->
  check_shell_permission env cmd true
  = ([EvEnvGet "ALLOW_SHELL"; EvEnvGet "ALLOWED_SHELL_COMMANDS"],
     Raise (IndexError "list index out of range")).
Proof.
  intros Hno Hname. unfold check_shell_permission, environ_get. simpl.
  fold (env_value env "ALLOW_SHELL").
  rewrite (bool_decide_eq_false_2 _ Hno). simpl.
  destruct cmd as [s|argv]; simpl in Hname; [|discriminate].
  destruct (py_split s); [reflexivity|discriminate].
Qed.

(** ** Facts about traces *)

Lemma spawned_app (tr1 tr2 : list event) :
  spawned (tr1 ++ tr2) = spawned tr1 || spawned tr2.
Proof. apply existsb_app. Qed.

Lemma consulted_app (name : string) (tr1 tr2 : list event) :
  consulted name (tr1 ++ tr2) = consulted name tr1 || consulted name tr2.
Proof. apply existsb_app. Qed.

Lemma no_spawn_no_split (tr pre post : list event) (ev : event) :
  spawned tr = false -> tr = pre ++ ev :: post -> is_spawn ev = true -> False.
Proof.
  intros Hno -> Hev. rewrite spawned_app in Hno. simpl in Hno.
  rewrite Hev, orb_true_r in Hno. discriminate.
Qed.

Lemma spawn_after_prefix (tr1 tr2 pre post : list event) (ev : event) :
  spawned tr1 = false ->
  tr1 ++ tr2 = pre ++ ev :: post ->
  is_spawn ev = true ->
  exists pre', pre = tr1 ++ pre'.
Proof.
  revert pre. induction tr1 as [|e tr1 IH]; intros pre Hno Heq Hev.
  - exists pre. reflexivity.
  - simpl in Hno. apply orb_false_elim in Hno as [He Hno].
    destruct pre as [|p pre]; simpl in Heq.
    + injection Heq as -> _. congruence.
    + injection Heq as -> Heq.
      destruct (IH pre Hno Heq Hev) as [pre' ->]. exists pre'. reflexivity.
Qed.

Lemma spawn_in_run_trace line1 cmd check capture_output text shell lvl line2
      (pre post : list event) (ev : event) :
  [EvLog Debug line1; EvSpawn cmd check capture_output text shell;
   EvLog lvl line2] = pre ++ ev :: post ->
  is_spawn ev = true ->
  ev = EvSpawn cmd check capture_output text shell.
Proof.
  intros Heq Hev.
  assert (Hin : In ev (pre ++ ev :: post)) by apply in_elt.
  rewrite <- Heq in Hin. simpl in Hin.
  destruct Hin as [<-|[<-|[<-|[]]]]; [discriminate|reflexivity|discriminate].
Qed.

(** ** Facts about the executor *)

Section ExecutorFacts.

Context {Kw : Type}.
Variable host_spawn :
  environ -> command -> bool -> bool -> bool -> Kw -> host_result.

Lemma run_logged_returned env cmd check capture_output text shell kwargs
      rc out err :
  host_spawn env cmd capture_output text shell kwargs = Exited rc out err ->
  check && negb (rc =? 0)%Z = false ->
  run_logged host_spawn env cmd check capture_output text shell kwargs
  = ([EvLog Debug ("Executing: " +:+ cmd_str_of cmd);
      EvSpawn cmd check capture_output text shell;
      EvLog Debug ("Command completed with return code: " +:+ pretty rc)],
     Return (mkCompleted cmd rc out err)).
Proof.
  intros Hhost Hck. unfold run_logged, subprocess_run. simpl.
  rewrite Hhost, Hck. reflexivity.
Qed.

Lemma run_logged_failed env cmd capture_output text shell kwargs
      rc out err :
  host_spawn env cmd capture_output text shell kwargs = Exited rc out err ->
  rc <> 0%Z ->
  run_logged host_spawn env cmd true capture_output text shell kwargs
  = ([EvLog Debug ("Executing: " +:+ cmd_str_of cmd);
      EvSpawn cmd true capture_output text shell;
      EvLog Error ("Command failed with return code " +:+ pretty rc
                   +:+ ": " +:+ cmd_str_of cmd)],
     Raise (CalledProcessError rc cmd out err)).
Proof.
  intros Hhost Hrc. unfold run_logged, subprocess_run. simpl.
  rewrite Hhost. apply Z.eqb_neq in Hrc. rewrite Hrc. reflexivity.
Qed.

Lemma run_logged_not_created env cmd check capture_output text shell kwargs
      msg :
  host_spawn env cmd capture_output text shell kwargs = SpawnFailed msg ->
  run_logged host_spawn env cmd check capture_output text shell kwargs
  = ([EvLog Debug ("Executing: " +:+ cmd_str_of cmd);
      EvSpawn cmd check capture_output text shell;
      EvLog Error ("Unexpected error running command: " +:+ msg)],
     Raise (SpawnError msg)).
Proof.
  intros Hhost. unfold run_logged, subprocess_run. simpl.
  rewrite Hhost. reflexivity.
Qed.

(** Whatever the host answers, the run block logs, calls
    [subprocess.run] once with the arguments it was given, logs again,
    and does not end in a [PermissionError]. *)
Lemma run_logged_shape env cmd check capture_output text shell kwargs :
  exists lvl line,
    trace (run_logged host_spawn env cmd check capture_output text shell kwargs)
    = [EvLog Debug ("Executing: " +:+ cmd_str_of cmd);
       EvSpawn cmd check capture_output text shell;
       EvLog lvl line]
    /\ is_permission_error
         (result (run_logged host_spawn env cmd check capture_output text
                             shell kwargs)) = false.
Proof.
  destruct (host_spawn env cmd capture_output text shell kwargs)
    as [rc out err|msg] eqn:Hhost.
  - destruct (check && negb (rc =? 0)%Z) eqn:Hck.
    + apply andb_prop in Hck as [-> Hrc].
      apply negb_true_iff, Z.eqb_neq in Hrc.
      rewrite (run_logged_failed _ _ _ _ _ _ _ _ _ Hhost Hrc).
      eexists _, _. split; reflexivity.
    + rewrite (run_logged_returned _ _ _ _ _ _ _ _ _ _ Hhost Hck).
      eexists _, _. split; reflexivity.
  - rewrite (run_logged_not_created _ _ _ _ _ _ _ _ Hhost).
    eexists _, _. split; reflexivity.
Qed.

Lemma safe_run_passed env cmd check capture_output text shell kwargs tr :
  check_shell_permission env cmd shell = (tr, Return tt) ->
  safe_run host_spawn env cmd check capture_output text shell kwargs
  = (tr ++ trace (run_logged host_spawn env cmd check capture_output text
                             shell kwargs),
     result (run_logged host_spawn env cmd check capture_output text
                        shell kwargs)).
Proof.
  intros H. unfold safe_run, bind. rewrite H.
  destruct (run_logged _ _ _ _ _ _ _ _). reflexivity.
Qed.

Lemma safe_run_refused env cmd check capture_output text shell kwargs tr e :
  check_shell_permission env cmd shell = (tr, Raise e) ->
  safe_run host_spawn env cmd check capture_output text shell kwargs
  = (tr, Raise e).
Proof. intros H. unfold safe_run, bind. rewrite H. reflexivity. Qed.

End ExecutorFacts.

(** ** The guarded executor: the permission check *)

Section ExecutorClaims.

Context {Kw : Type}.
Variable host_spawn :
  environ -> command -> bool -> bool -> bool -> Kw -> host_result.

Lemma safe_run_shell_call env cmd check capture_output text kwargs :
  shell_call env cmd
    (run_logged host_spawn env cmd check capture_output text true kwargs)
    (safe_run host_spawn env cmd check capture_output text true kwargs).
Proof.
  destruct (decide (py_lower (env_value env "ALLOW_SHELL") = "true"))
    as [Hallow|Hno].
  - apply call_allowed; [exact Hallow|].
    apply safe_run_passed, check_allow, Hallow.
  - destruct (extracted_name cmd) as [name|] eqn:Hname.
    + destruct (decide (name ∈ allowed_names env)) as [Hin|Hout].
      * apply (call_listed _ _ _ _ name); auto.
        apply safe_run_passed. eapply check_listed; eauto.
      * apply (call_denied _ _ _ _ name); auto.
        apply safe_run_refused. apply check_denied; auto.
    + apply call_no_name; auto.
      apply safe_run_refused. apply check_no_name; auto.
Qed.

Lemma not_authorized_cases env cmd :
  ~ shell_authorized env cmd ->
  ~ allow_shell_globally env /\
  forall name, extracted_name cmd = Some name -> name ∉ allowed_names env.
Proof.
  intros Hna. split.
  - intros H. apply Hna. left. exact H.
  - intros name Hname Hin. apply Hna. right. eauto.
Qed.

(** A permitted call passes the permission block without spawning. *)
Lemma check_passes env cmd shell :
  (shell = true -> shell_authorized env cmd) ->
  exists tr, check_shell_permission env cmd shell = (tr, Return tt)
             /\ spawned tr = false.
Proof.
  destruct shell; intros Hauth.
  - destruct (decide (py_lower (env_value env "ALLOW_SHELL") = "true"))
      as [Hallow|Hno].
    + eexists. split; [apply check_allow, Hallow | reflexivity].
    + destruct (Hauth eq_refl) as [Hallow|(name & Hname & Hin)];
        [contradiction|].
      eexists. split; [eapply check_listed; eauto | reflexivity].
  - eexists. split; [apply check_no_shell | reflexivity].
Qed.

(** C1. With [shell=True], the call begins by reading [ALLOW_SHELL] and,
    unless that allows shell use globally, [ALLOWED_SHELL_COMMANDS] next.
    Whenever the trace reaches a call of [subprocess.run], it is one with
    [shell=True], the policy authorizes the command, and the reads have
    been done before it. When the policy does not authorize the command,
    the call ends in an exception and its trace has no call of
    [subprocess.run]. *)
Theorem safe_run_shell_guard env cmd check capture_output text kwargs :
  let call :=
    safe_run host_spawn env cmd check capture_output text true kwargs in
  (exists rest,
      trace call = ALLOW :: rest /\
      (~ allow_shell_globally env -> exists rest', rest = ALLOWED :: rest'))
  /\ (forall pre ev post,
      trace call = pre ++ ev :: post ->
      is_spawn ev = true ->
      is_shell_spawn ev = true /\
      shell_authorized env cmd /\
      consulted "ALLOW_SHELL" pre = true /\
      (~ allow_shell_globally env ->
       consulted "ALLOWED_SHELL_COMMANDS" pre = true))
  /\ (~ shell_authorized env cmd ->
      spawned (trace call) = false /\ exists e, result call = Raise e).
Proof.
  intros call. subst call.
  destruct (run_logged_shape host_spawn env cmd check capture_output text
                             true kwargs) as (lvl & line & Htr & _).
  destruct (safe_run_shell_call env cmd check capture_output text kwargs)
    as [Hallow Hcall | name Hno Hname Hin Hcall
        | name Hno Hname Hout Hcall | Hno Hname Hcall];
    rewrite Hcall; clear Hcall; unfold trace, result in *; simpl fst;
    simpl snd;
    (split;
     [eexists; split;
      [reflexivity | intros Hx; first [contradiction | eexists; reflexivity]]
     | split]).
  - intros pre ev post Heq Hev.
    destruct (spawn_after_prefix [ALLOW] _ pre post ev eq_refl Heq Hev)
      as [pre' ->].
    rewrite Htr in Heq. simpl in Heq.
    repeat split.
    + injection Heq as Heq.
      rewrite (spawn_in_run_trace _ _ _ _ _ _ _ _ _ _ _ Heq Hev).
      reflexivity.
    + left. exact Hallow.
    + contradiction.
  - intros Hna. destruct Hna. left. exact Hallow.
  - intros pre ev post Heq Hev.
    destruct (spawn_after_prefix [ALLOW; ALLOWED] _ pre post ev eq_refl
                                 Heq Hev) as [pre' ->].
    rewrite Htr in Heq. simpl in Heq.
    repeat split.
    + injection Heq as Heq.
      rewrite (spawn_in_run_trace _ _ _ _ _ _ _ _ _ _ _ Heq Hev).
      reflexivity.
    + right. eauto.
  - intros Hna. destruct Hna. right. eauto.
  - intros pre ev post Heq Hev.
    destruct (no_spawn_no_split [ALLOW; ALLOWED] pre post ev eq_refl Heq Hev).
  - intros _. split; [reflexivity | eauto].
  - intros pre ev post Heq Hev.
    destruct (no_spawn_no_split [ALLOW; ALLOWED] pre post ev eq_refl Heq Hev).
  - intros _. split; [reflexivity | eauto].
Qed.

(** C2. A list-form command with [shell=True] is refused whenever
    [ALLOW_SHELL] does not lowercase to ["true"], whatever
    [ALLOWED_SHELL_COMMANDS] holds: its name is the empty string, which
    is no entry of the allowed list, so the call raises [PermissionError]
    after the two reads and before anything else. *)
Theorem list_shell_fails_closed env argv check capture_output text kwargs :
  ~ allow_shell_globally env ->
  extracted_name (CmdList argv) = Some EmptyString
  /\ (EmptyString ∉ allowed_names env)
  /\ safe_run host_spawn env (CmdList argv) check capture_output text true
              kwargs
     = ([ALLOW; ALLOWED],
        Raise (PermissionError (permission_message EmptyString))).
Proof.
  intros Hno. split; [reflexivity|]. split.
  - apply allowed_list_of_no_empty.
  - apply safe_run_refused. apply check_denied; [exact Hno|reflexivity|].
    apply allowed_list_of_no_empty.
Qed.

(** For a command that has a name, and without the global permission,
    the call is refused with [PermissionError] exactly when the name is
    not an entry of the allowed list; the message names it and the two
    variables, and nothing is spawned. *)
Lemma named_command_decision env cmd name check capture_output text kwargs :
  ~ allow_shell_globally env ->
  extracted_name cmd = Some name ->
  let call :=
    safe_run host_spawn env cmd check capture_output text true kwargs in
  (name ∉ allowed_names env <-> is_permission_error (result call) = true)
  /\ (name ∉ allowed_names env ->
      call = ([ALLOW; ALLOWED],
              Raise (PermissionError (permission_message name))))
  /\ (name ∈ allowed_names env -> spawned (trace call) = true).
Proof.
  intros Hno Hname call. subst call.
  destruct (run_logged_shape host_spawn env cmd check capture_output text
                             true kwargs) as (lvl & line & Htr & Hperm).
  destruct (safe_run_shell_call env cmd check capture_output text kwargs)
    as [Hallow Hcall | name' Hno' Hname' Hin Hcall
        | name' Hno' Hname' Hout Hcall | Hno' Hname' Hcall];
    try contradiction; try congruence;
    assert (name' = name) as -> by congruence; rewrite Hcall;
    unfold trace, result in *; simpl fst; simpl snd.
  - rewrite Hperm, Htr. repeat split; try reflexivity; try contradiction.
    discriminate.
  - repeat split; try reflexivity; try contradiction. intros _. exact Hout.
Qed.

Lemma permission_message_names name :
  py_contains name (permission_message name)
  /\ py_contains "ALLOW_SHELL" (permission_message name)
  /\ py_contains "ALLOWED_SHELL_COMMANDS" (permission_message name).
Proof.
  unfold py_contains, permission_message. repeat split.
  - exists "Shell execution not allowed. Set ALLOW_SHELL=true or add '",
           "' to ALLOWED_SHELL_COMMANDS environment variable.".
    reflexivity.
  - exists "Shell execution not allowed. Set ",
           ("=true or add '" +:+ name
            +:+ "' to ALLOWED_SHELL_COMMANDS environment variable.").
    reflexivity.
  - exists ("Shell execution not allowed. Set ALLOW_SHELL=true or add '"
            +:+ name +:+ "' to "), " environment variable.".
    rewrite !append_assoc. reflexivity.
Qed.

(** With both variables unset, every command that has a name is refused
    with [PermissionError] after the two reads. *)
Lemma unset_refuses_named_command env cmd name check capture_output text
      kwargs :
  env !! "ALLOW_SHELL" = None ->
  env !! "ALLOWED_SHELL_COMMANDS" = None ->
  extracted_name cmd = Some name ->
  safe_run host_spawn env cmd check capture_output text true kwargs
  = ([ALLOW; ALLOWED], Raise (PermissionError (permission_message name))).
Proof.
  intros Hallow Hallowed Hname.
  apply safe_run_refused, check_denied;
    [apply allow_shell_unset, Hallow | exact Hname |].
  rewrite (allowed_names_unset env Hallowed). apply not_elem_of_nil.
Qed.

(** C3, at the input where the code departs from it: the empty string
    command with [shell=True] and both variables unset ends in
    [IndexError], not in [PermissionError]. *)
Theorem empty_command_unset_index_error check capture_output text kwargs :
  safe_run host_spawn ∅ (CmdStr EmptyString) check capture_output text true
           kwargs
  = ([ALLOW; ALLOWED], Raise (IndexError "list index out of range"))
  /\ is_permission_error
       (result (safe_run host_spawn ∅ (CmdStr EmptyString) check
                         capture_output text true kwargs)) = false.
Proof. split; reflexivity. Qed.

(** C4. When [ALLOW_SHELL] lowercases to ["true"], a call with
    [shell=True] is the read of [ALLOW_SHELL] followed by the run block:
    it does not end in a [PermissionError], never reads
    [ALLOWED_SHELL_COMMANDS], and calls [subprocess.run] on the command
    with [shell=True]. *)
Theorem allow_shell_unconditional env cmd check capture_output text kwargs :
  allow_shell_globally env ->
  let run := run_logged host_spawn env cmd check capture_output text true
                        kwargs in
  let call := safe_run host_spawn env cmd check capture_output text true
                       kwargs in
  call = (ALLOW :: trace run, result run)
  /\ is_permission_error (result call) = false
  /\ consulted "ALLOWED_SHELL_COMMANDS" (trace call) = false
  /\ EvSpawn cmd check capture_output text true ∈ trace call.
Proof.
  intros Hallow run call. subst run call.
  rewrite (safe_run_passed host_spawn _ _ _ _ _ _ _ _ (check_allow env cmd Hallow)).
  destruct (run_logged_shape host_spawn env cmd check capture_output text
                             true kwargs) as (lvl & line & Htr & Hperm).
  unfold trace, result in *. simpl fst. simpl snd.
  rewrite Htr, Hperm. repeat split; try reflexivity.
  apply list_elem_of_In. simpl. auto.
Qed.

(** C5. When the call is permitted and the process exits with a non-zero
    code: under [check=True] the call raises [CalledProcessError] with
    that code and the command, after an error log with the code and the
    command text; under [check=False] the same call returns the
    [CompletedProcess] with that code. Both have spawned the process. *)
Theorem check_controls_failure env cmd capture_output text shell kwargs
        rc out err :
  (shell = true -> shell_authorized env cmd) ->
  host_spawn env cmd capture_output text shell kwargs = Exited rc out err ->
  rc <> 0%Z ->
  let checked :=
    safe_run host_spawn env cmd true capture_output text shell kwargs in
  let unchecked :=
    safe_run host_spawn env cmd false capture_output text shell kwargs in
  result checked = Raise (CalledProcessError rc cmd out err)
  /\ (Error, "Command failed with return code " +:+ pretty rc +:+ ": "
             +:+ cmd_str_of cmd) ∈ dispatched (trace checked)
  /\ spawned (trace checked) = true
  /\ result unchecked = Return (mkCompleted cmd rc out err)
  /\ returncode (mkCompleted cmd rc out err) = rc
  /\ spawned (trace unchecked) = true.
Proof.
  intros Hauth Hhost Hrc checked unchecked. subst checked unchecked.
  destruct (check_passes env cmd shell Hauth) as (tr & Hcheck & Hquiet).
  rewrite !(safe_run_passed host_spawn _ _ _ _ _ _ _ _ Hcheck).
  rewrite (run_logged_failed host_spawn _ _ _ _ _ _ _ _ _ Hhost Hrc).
  rewrite (run_logged_returned host_spawn _ _ false _ _ _ _ _ _ _ Hhost eq_refl).
  unfold trace, result. simpl fst. simpl snd.
  rewrite !spawned_app, Hquiet. simpl.
  repeat split; try reflexivity.
  clear. induction tr as [|[] tr IH]; simpl; rewrite ?list_elem_of_In in *;
    simpl; auto.
Qed.

(** C9. A string command that is empty or all whitespace, with
    [shell=True] and without the global permission, ends in the
    [IndexError] of taking the first token of an empty list, after the
    two reads; it is not a [PermissionError] and nothing is spawned. *)
Theorem blank_command_index_error env s check capture_output text kwargs :
  all_space s = true ->
  ~ allow_shell_globally env ->
  let call := safe_run host_spawn env (CmdStr s) check capture_output text
                       true kwargs in
  py_split s = []
  /\ call = ([ALLOW; ALLOWED], Raise (IndexError "list index out of range"))
  /\ is_permission_error (result call) = false
  /\ spawned (trace call) = false.
Proof.
  intros Hblank Hno call. subst call.
  pose proof (py_split_all_space s Hblank) as Hsplit.
  rewrite (safe_run_refused host_spawn _ _ _ _ _ _ _ _ _
             (check_no_name env (CmdStr s) Hno
                ltac:(simpl; rewrite Hsplit; reflexivity))).
  repeat split; try reflexivity. exact Hsplit.
Qed.

(** C10. Two string commands with the same first token get the same
    decision under the same environment: the permission block does the
    same reads and ends the same way (with the same message when it
    refuses), so either both calls are refused with [PermissionError]
    and spawn nothing, or both go on to spawn. *)
Theorem first_token_decides env s1 s2 tok check capture_output text kwargs :
  head (py_split s1) = Some tok ->
  head (py_split s2) = Some tok ->
  let call1 := safe_run host_spawn env (CmdStr s1) check capture_output text
                        true kwargs in
  let call2 := safe_run host_spawn env (CmdStr s2) check capture_output text
                        true kwargs in
  check_shell_permission env (CmdStr s1) true
  = check_shell_permission env (CmdStr s2) true
  /\ is_permission_error (result call1) = is_permission_error (result call2)
  /\ spawned (trace call1) = spawned (trace call2).
Proof.
  intros H1 H2 call1 call2. subst call1 call2.
  assert (Hblock : check_shell_permission env (CmdStr s1) true
                   = check_shell_permission env (CmdStr s2) true).
  { unfold check_shell_permission.
    destruct (py_split s1) as [|t1 ts1]; [discriminate|].
    destruct (py_split s2) as [|t2 ts2]; [discriminate|].
    simpl in H1, H2. injection H1 as ->. injection H2 as ->. reflexivity. }
  split; [exact Hblock|].
  destruct (run_logged_shape host_spawn env (CmdStr s1) check capture_output
                             text true kwargs) as (l1 & n1 & Htr1 & Hp1).
  destruct (run_logged_shape host_spawn env (CmdStr s2) check capture_output
                             text true kwargs) as (l2 & n2 & Htr2 & Hp2).
  unfold safe_run, bind. rewrite <- Hblock.
  destruct (check_shell_permission env (CmdStr s1) true) as [tr [[]|e]].
  - unfold trace, result in *.
    destruct (run_logged host_spawn env (CmdStr s1) _ _ _ _ _) as [tr1 r1].
    destruct (run_logged host_spawn env (CmdStr s2) _ _ _ _ _) as [tr2 r2].
    simpl in *. subst tr1 tr2. rewrite Hp1, Hp2, !spawned_app. simpl.
    rewrite !orb_true_r. split; reflexivity.
  - split; reflexivity.
Qed.

End ExecutorClaims.

(** ** The logger facade: resolution, line and routing *)

Lemma log_methods_lookup (k : string) :
  log_methods !! k =
  if decide (k = "debug") then Some Debug
  else if decide (k = "info") then Some Info
  else if decide (k = "warning") then Some Warning
  else if decide (k = "error") then Some Error
  else if decide (k = "critical") then Some Critical
  else None.
Proof.
  unfold log_methods. rewrite !lookup_insert, lookup_singleton.
  repeat case_decide; congruence.
Qed.

(** The test of line 133 on the level string is the test on the resolved
    severity. *)
Lemma failure_level_resolved (level : string) :
  bool_decide (py_lower level ∈ ["error"; "critical"])
  = is_failure_level (default Info (log_methods !! py_lower level)).
Proof.
  rewrite log_methods_lookup.
  destruct (decide (py_lower level ∈ ["error"; "critical"])) as [Hin|Hout].
  - rewrite (bool_decide_eq_true_2 _ Hin).
    apply list_elem_of_In in Hin. simpl in Hin.
    destruct Hin as [<-|[<-|[]]]; reflexivity.
  - rewrite (bool_decide_eq_false_2 _ Hout).
    rewrite list_elem_of_In in Hout. simpl in Hout.
    repeat case_decide; try reflexivity; exfalso; apply Hout; auto.
Qed.

Lemma unknown_level_resolved (level : string) :
  py_lower level ∉ ["debug"; "info"; "warning"; "error"; "critical"] ->
  default Info (log_methods !! py_lower level) = Info
  /\ bool_decide (py_lower level ∈ ["error"; "critical"]) = false.
Proof.
  intros Hout. rewrite failure_level_resolved, log_methods_lookup.
  rewrite list_elem_of_In in Hout. simpl in Hout.
  repeat case_decide; try (split; reflexivity); exfalso; apply Hout; auto 10.
Qed.

Section LoggerClaims.

Context {V : Type}.
Variable py_format : V -> string.

Lemma extra_context_pairs k v (kvs : list (string * V)) :
  extra_context_of py_format ((k, v) :: kvs)
  = k +:+ "=" +:+ py_format v +:+ pairs_after py_format kvs.
Proof.
  unfold extra_context_of. revert k v.
  induction kvs as [|[k' v'] kvs IH]; intros k v.
  - simpl. now rewrite append_empty_r.
  - change (py_join " | " (map (fun kv => fst kv +:+ "=" +:+ py_format (snd kv))
                           ((k, v) :: (k', v') :: kvs)))
      with ((k +:+ "=" +:+ py_format v) +:+ " | "
            +:+ py_join " | "
                  (map (fun kv => fst kv +:+ "=" +:+ py_format (snd kv))
                       ((k', v') :: kvs))).
    rewrite IH, !append_assoc. reflexivity.
Qed.

(** The line [user_log] builds is the line of the specification. *)
Lemma user_log_line env message level stderr kwargs :
  user_log py_format env message level stderr kwargs
  = (let lvl := default Info (log_methods !! py_lower level) in
     let line := context_line py_format message kwargs in
     EvLog lvl line :: EvEnvGet "LOG_TO_STDOUT"
     :: (if bool_decide (py_lower (env_value env "LOG_TO_STDOUT") = "true")
         then [EvPrint (if stderr || is_failure_level lvl
                        then Stderr else Stdout) line]
         else []),
     Return tt).
Proof.
  unfold user_log, environ_get. simpl. fold (env_value env "LOG_TO_STDOUT").
  rewrite failure_level_resolved.
  assert (Hline : match kwargs with
                  | [] => message
                  | _ :: _ => message +:+ " [" +:+ extra_context_of py_format kwargs
                              +:+ "]"
                  end = context_line py_format message kwargs).
  { destruct kwargs as [|[k v] kvs]; [reflexivity|].
    rewrite extra_context_pairs. reflexivity. }
  rewrite Hline.
  destruct (bool_decide (py_lower (env_value env "LOG_TO_STDOUT") = "true"));
    reflexivity.
Qed.

(** C6. The console receives the final line, once, exactly when
    [LOG_TO_STDOUT] lowercases to ["true"], and nothing otherwise (in
    particular when it is unset, whatever the level); the stream is
    standard error when [stderr] is set or the resolved severity is
    error or critical, and standard output otherwise. *)
Theorem console_mirror_routing env message level stderr kwargs :
  let tr := trace (user_log py_format env message level stderr kwargs) in
  exists lvl line,
    dispatched tr = [(lvl, line)]
    /\ console tr
       = (if bool_decide (py_lower (env_value env "LOG_TO_STDOUT") = "true")
          then [(if stderr || is_failure_level lvl then Stderr else Stdout,
                 line)]
          else [])
    /\ (console tr <> [] <->
        py_lower (env_value env "LOG_TO_STDOUT") = "true")
    /\ (env !! "LOG_TO_STDOUT" = None -> console tr = []).
Proof.
  intros tr. subst tr. rewrite user_log_line. unfold trace. simpl fst.
  exists (default Info (log_methods !! py_lower level)),
         (context_line py_format message kwargs).
  unfold env_value.
  destruct (decide (py_lower (default EmptyString (env !! "LOG_TO_STDOUT"))
                    = "true")) as [Hon|Hoff].
  - rewrite (bool_decide_eq_true_2 _ Hon). simpl.
    repeat split; try reflexivity; try discriminate; auto.
    intros Hunset. rewrite Hunset in Hon. discriminate.
  - rewrite (bool_decide_eq_false_2 _ Hoff). simpl.
    repeat split; try reflexivity; try contradiction.
Qed.

(** C7. The logger receives one line: the message alone when the context
    is empty, and otherwise the message, a space, and in brackets the
    pairs [key=value] of the context in its order, joined by [" | "]. *)
Theorem context_line_dispatched env message level stderr kwargs :
  exists lvl,
    dispatched (trace (user_log py_format env message level stderr kwargs))
    = [(lvl, context_line py_format message kwargs)]
    /\ (kwargs = [] -> context_line py_format message kwargs = message)
    /\ (kwargs <> [] ->
        context_line py_format message kwargs
        = message +:+ " " +:+ "["
          +:+ py_join " | "
                (map (fun kv => fst kv +:+ "=" +:+ py_format (snd kv)) kwargs)
          +:+ "]").
Proof.
  rewrite user_log_line. unfold trace. simpl fst.
  exists (default Info (log_methods !! py_lower level)).
  split; [|split].
  - destruct (bool_decide _); reflexivity.
  - intros ->. reflexivity.
  - intros Hne. destruct kwargs as [|[k v] kvs]; [contradiction|].
    fold (extra_context_of py_format ((k, v) :: kvs)).
    rewrite extra_context_pairs. reflexivity.
Qed.

(** C8. A level that is none of the five names, whatever its case, gives
    the very call that ["info"] gives: same logger method, same line,
    same console output. *)
Theorem unknown_level_is_info env message level stderr kwargs :
  py_lower level ∉ ["debug"; "info"; "warning"; "error"; "critical"] ->
  user_log py_format env message level stderr kwargs
  = user_log py_format env message "info" stderr kwargs.
Proof.
  intros Hunknown.
  destruct (unknown_level_resolved level Hunknown) as [Hlvl Hfail].
  unfold user_log. rewrite Hlvl, Hfail. reflexivity.
Qed.

End LoggerClaims.

(** ** The theorems at concrete calls *)

Lemma list_shell_fails_closed_witness :
  ~ allow_shell_globally {[ "ALLOWED_SHELL_COMMANDS" := "echo, ,ls" ]}
  /\ safe_run demo_host {[ "ALLOWED_SHELL_COMMANDS" := "echo, ,ls" ]}
              (CmdList ["echo"; "hi"]) true false true true tt
     = ([ALLOW; ALLOWED],
        Raise (PermissionError (permission_message EmptyString))).
Proof.
  assert (Hno : ~ allow_shell_globally
                  {[ "ALLOWED_SHELL_COMMANDS" := "echo, ,ls" ]}).
  { intros H. vm_compute in H. discriminate H. }
  split; [exact Hno|].
  apply (list_shell_fails_closed demo_host _ ["echo"; "hi"] true false true tt
                                 Hno).
Defined.

Lemma allow_shell_unconditional_witness :
  allow_shell_globally {[ "ALLOW_SHELL" := "TRUE" ]}
  /\ safe_run demo_host {[ "ALLOW_SHELL" := "TRUE" ]}
              (CmdStr "echo hello") true true true true tt
     = (ALLOW :: trace (run_logged demo_host {[ "ALLOW_SHELL" := "TRUE" ]}
                                   (CmdStr "echo hello") true true true true tt),
        result (run_logged demo_host {[ "ALLOW_SHELL" := "TRUE" ]}
                           (CmdStr "echo hello") true true true true tt)).
Proof.
  assert (Hallow : allow_shell_globally {[ "ALLOW_SHELL" := "TRUE" ]})
    by reflexivity.
  split; [exact Hallow|].
  apply (allow_shell_unconditional demo_host _ (CmdStr "echo hello") true true
                                   true tt Hallow).
Defined.

Lemma check_controls_failure_witness :
  result (safe_run demo_host {[ "ALLOWED_SHELL_COMMANDS" := "false" ]}
                   (CmdStr "false") true false true true tt)
  = Raise (CalledProcessError 1 (CmdStr "false") None None)
  /\ result (safe_run demo_host {[ "ALLOWED_SHELL_COMMANDS" := "false" ]}
                      (CmdStr "false") false false true true tt)
     = Return (mkCompleted (CmdStr "false") 1 None None).
Proof.
  assert (Hauth : true = true ->
                  shell_authorized {[ "ALLOWED_SHELL_COMMANDS" := "false" ]}
                                   (CmdStr "false")).
  { intros _. right. exists "false". split; [reflexivity|].
    apply list_elem_of_In. vm_compute. left. reflexivity. }
  assert (Hrc : 1%Z <> 0%Z) by discriminate.
  pose proof (check_controls_failure demo_host
                {[ "ALLOWED_SHELL_COMMANDS" := "false" ]} (CmdStr "false")
                false true true tt 1 None None Hauth eq_refl Hrc) as H.
  split; [apply H | apply H].
Defined.

Lemma blank_command_index_error_witness :
  all_space "  " = true
  /\ ~ allow_shell_globally (∅ : environ)
  /\ safe_run demo_host ∅ (CmdStr "  ") true false true true tt
     = ([ALLOW; ALLOWED], Raise (IndexError "list index out of range")).
Proof.
  assert (Hno : ~ allow_shell_globally (∅ : environ)).
  { intros H. vm_compute in H. discriminate H. }
  split; [reflexivity|]. split; [exact Hno|].
  apply (blank_command_index_error demo_host ∅ "  " true false true tt eq_refl
                                   Hno).
Defined.

Lemma first_token_decides_witness :
  head (py_split "echo hi") = Some "echo"
  /\ head (py_split "echo $(rm -rf /)") = Some "echo"
  /\ check_shell_permission {[ "ALLOWED_SHELL_COMMANDS" := "echo" ]}
                            (CmdStr "echo hi") true
     = check_shell_permission {[ "ALLOWED_SHELL_COMMANDS" := "echo" ]}
                              (CmdStr "echo $(rm -rf /)") true.
Proof.
  split; [reflexivity|]. split; [reflexivity|].
  apply (first_token_decides demo_host
           {[ "ALLOWED_SHELL_COMMANDS" := "echo" ]}
           "echo hi" "echo $(rm -rf /)" "echo" true false true tt
           eq_refl eq_refl).
Defined.

Lemma unknown_level_is_info_witness :
  (py_lower "Trace" ∉ ["debug"; "info"; "warning"; "error"; "critical"])
  /\ user_log id {[ "LOG_TO_STDOUT" := "true" ]} "Started" "Trace" false
              [("task_id", "123")]
     = user_log id {[ "LOG_TO_STDOUT" := "true" ]} "Started" "info" false
                [("task_id", "123")].
Proof.
  assert (Hunknown : py_lower "Trace"
                     ∉ ["debug"; "info"; "warning"; "error"; "critical"]).
  { intros H. apply list_elem_of_In in H. vm_compute in H.
    repeat (destruct H as [H|H]; [discriminate H|]). exact H. }
  split; [exact Hunknown|].
  apply (unknown_level_is_info id _ "Started" "Trace" false
                               [("task_id", "123")] Hunknown).
Defined.

(** ** More on the guarded executor *)

Section ExecutorMore.

Context {Kw : Type}.
Variable host_spawn :
  environ -> command -> bool -> bool -> bool -> Kw -> host_result.

(** The three ways the run block can end, by what the host answers. *)
Lemma run_logged_cases env cmd check capture_output text shell kwargs :
  let run := run_logged host_spawn env cmd check capture_output text shell
                        kwargs in
  (exists rc out err,
      host_spawn env cmd capture_output text shell kwargs = Exited rc out err
      /\ check && negb (rc =? 0)%Z = false
      /\ run = ([EvLog Debug ("Executing: " +:+ cmd_str_of cmd);
                 EvSpawn cmd check capture_output text shell;
                 EvLog Debug ("Command completed with return code: "
                              +:+ pretty rc)],
                Return (mkCompleted cmd rc out err)))
  \/ (exists rc out err,
      host_spawn env cmd capture_output text shell kwargs = Exited rc out err
      /\ check = true /\ rc <> 0%Z
      /\ run = ([EvLog Debug ("Executing: " +:+ cmd_str_of cmd);
                 EvSpawn cmd check capture_output text shell;
                 EvLog Error ("Command failed with return code " +:+ pretty rc
                              +:+ ": " +:+ cmd_str_of cmd)],
                Raise (CalledProcessError rc cmd out err)))
  \/ (exists msg,
      host_spawn env cmd capture_output text shell kwargs = SpawnFailed msg
      /\ run = ([EvLog Debug ("Executing: " +:+ cmd_str_of cmd);
                 EvSpawn cmd check capture_output text shell;
                 EvLog Error ("Unexpected error running command: " +:+ msg)],
                Raise (SpawnError msg))).
Proof.
  intros run. subst run.
  destruct (host_spawn env cmd capture_output text shell kwargs)
    as [rc out err|msg] eqn:Hhost.
  - destruct (check && negb (rc =? 0)%Z) eqn:Hck.
    + right. left. apply andb_prop in Hck as [-> Hrc].
      apply negb_true_iff, Z.eqb_neq in Hrc.
      exists rc, out, err. repeat split; auto.
      apply run_logged_failed; auto.
    + left. exists rc, out, err. repeat split; auto.
      apply run_logged_returned; auto.
  - right. right. exists msg. split; auto.
    apply run_logged_not_created; auto.
Qed.

(** The permission block only reads the environment; it logs nothing. *)
Lemma check_only_reads env cmd shell :
  forallb is_any_env_get (trace (check_shell_permission env cmd shell)) = true.
Proof.
  destruct shell; [|reflexivity].
  unfold check_shell_permission, environ_get. simpl.
  destruct (bool_decide _); simpl; [reflexivity|].
  destruct cmd as [s|argv]; simpl.
  - destruct (py_split s); simpl; [reflexivity|].
    destruct (bool_decide _); reflexivity.
  - destruct (bool_decide _); reflexivity.
Qed.

(** The permission block ends normally, in [PermissionError] or in
    [IndexError]. *)
Lemma check_result_cases env cmd shell :
  result (check_shell_permission env cmd shell) = Return tt
  \/ (exists msg, result (check_shell_permission env cmd shell)
                  = Raise (PermissionError msg))
  \/ (exists msg, result (check_shell_permission env cmd shell)
                  = Raise (IndexError msg)).
Proof.
  destruct shell; [|left; reflexivity].
  unfold check_shell_permission, environ_get. simpl.
  destruct (bool_decide _); simpl; [left; reflexivity|].
  destruct cmd as [s|argv]; simpl.
  - destruct (py_split s); simpl; [right; right; eauto|].
    destruct (bool_decide _); simpl; [right; left; eauto | left; reflexivity].
  - destruct (bool_decide _); simpl; [right; left; eauto | left; reflexivity].
Qed.

(** X1. With [shell=False] the call is the run block alone: the
    environment is not read, whatever it holds, [subprocess.run] is called
    once on the command with [shell=False], and the call never ends in the
    [PermissionError] or [IndexError] of the permission block. *)
Theorem no_shell_skips_policy env cmd check capture_output text kwargs :
  let call :=
    safe_run host_spawn env cmd check capture_output text false kwargs in
  call = run_logged host_spawn env cmd check capture_output text false kwargs
  /\ existsb is_any_env_get (trace call) = false
  /\ spawn_count (trace call) = 1
  /\ EvSpawn cmd check capture_output text false ∈ trace call
  /\ (forall msg, result call <> Raise (PermissionError msg))
  /\ (forall msg, result call <> Raise (IndexError msg)).
Proof.
  intros call. subst call.
  rewrite (safe_run_passed host_spawn env cmd check capture_output text false
                           kwargs [] (check_no_shell env cmd)).
  simpl app.
  destruct (run_logged_cases env cmd check capture_output text false kwargs)
    as [(rc & out & err & _ & _ & ->)
       |[(rc & out & err & _ & _ & _ & ->)|(msg & _ & ->)]];
    unfold trace, result; simpl fst; simpl snd;
    (repeat split; try reflexivity; try discriminate;
     apply list_elem_of_In; simpl; auto).
Qed.

(** X2. When the host cannot create the process, a permitted call raises
    the host's error whatever [check] is, after one error-level log that
    carries the error's text. *)
Theorem spawn_failure_propagates env cmd check capture_output text shell
        kwargs msg :
  (shell = true -> shell_authorized env cmd) ->
  host_spawn env cmd capture_output text shell kwargs = SpawnFailed msg ->
  let call :=
    safe_run host_spawn env cmd check capture_output text shell kwargs in
  result call = Raise (SpawnError msg)
  /\ dispatched (trace call)
     = [(Debug, "Executing: " +:+ cmd_str_of cmd);
        (Error, "Unexpected error running command: " +:+ msg)]
  /\ spawn_count (trace call) = 1.
Proof.
  intros Hauth Hhost call. subst call.
  destruct (check_passes env cmd shell Hauth) as (tr & Hcheck & Hquiet).
  rewrite (safe_run_passed host_spawn _ _ _ _ _ _ _ _ Hcheck).
  rewrite (run_logged_not_created host_spawn _ _ _ _ _ _ _ _ Hhost).
  unfold trace, result. simpl fst. simpl snd.
  pose proof (check_only_reads env cmd shell) as Hreads.
  rewrite Hcheck in Hreads. unfold trace in Hreads. simpl in Hreads.
  split; [reflexivity|].
  clear Hcheck Hquiet. unfold spawn_count.
  induction tr as [|ev tr IH]; [split; reflexivity|].
  simpl in Hreads. apply andb_prop in Hreads as [Hev Hreads].
  destruct ev; try discriminate. simpl. rewrite filter_cons_False by discriminate.
  apply IH, Hreads.
Qed.

(** X3. When the process exits with code 0, [check] makes no difference:
    a permitted call returns the same [CompletedProcess], with code 0 and
    the host's output, and logs the same two debug lines. *)
Theorem zero_exit_ignores_check env cmd capture_output text shell kwargs
        out err :
  (shell = true -> shell_authorized env cmd) ->
  host_spawn env cmd capture_output text shell kwargs = Exited 0 out err ->
  forall check,
    result (safe_run host_spawn env cmd check capture_output text shell
                     kwargs)
    = Return (mkCompleted cmd 0 out err)
    /\ dispatched (trace (safe_run host_spawn env cmd check capture_output
                                   text shell kwargs))
       = [(Debug, "Executing: " +:+ cmd_str_of cmd);
          (Debug, "Command completed with return code: 0")].
Proof.
  intros Hauth Hhost check.
  destruct (check_passes env cmd shell Hauth) as (tr & Hcheck & Hquiet).
  rewrite (safe_run_passed host_spawn _ _ _ _ _ _ _ _ Hcheck).
  rewrite (run_logged_returned host_spawn _ _ check _ _ _ _ _ _ _ Hhost)
    by (destruct check; reflexivity).
  unfold trace, result. simpl fst. simpl snd.
  pose proof (check_only_reads env cmd shell) as Hreads.
  rewrite Hcheck in Hreads. unfold trace in Hreads. simpl in Hreads.
  split; [reflexivity|].
  clear Hcheck Hquiet.
  induction tr as [|ev tr IH]; [reflexivity|].
  simpl in Hreads. apply andb_prop in Hreads as [Hev Hreads].
  destruct ev; try discriminate. simpl. apply IH, Hreads.
Qed.

End ExecutorMore.

(** ** Traces made of environment reads *)

Lemma reads_dispatched (tr tr' : list event) :
  forallb is_any_env_get tr = true -> dispatched (tr ++ tr') = dispatched tr'.
Proof.
  induction tr as [|ev tr IH]; [reflexivity|]. simpl.
  intros [Hev Htr]%andb_prop. destruct ev; try discriminate. simpl. auto.
Qed.

Lemma reads_console (tr tr' : list event) :
  forallb is_any_env_get tr = true -> console (tr ++ tr') = console tr'.
Proof.
  induction tr as [|ev tr IH]; [reflexivity|]. simpl.
  intros [Hev Htr]%andb_prop. destruct ev; try discriminate. simpl. auto.
Qed.

Lemma reads_spawn_count (tr tr' : list event) :
  forallb is_any_env_get tr = true ->
  spawn_count (tr ++ tr') = spawn_count tr'.
Proof.
  unfold spawn_count.
  induction tr as [|ev tr IH]; [reflexivity|]. simpl.
  intros [Hev Htr]%andb_prop. destruct ev; try discriminate.
  rewrite filter_cons_False by discriminate. auto.
Qed.

Section ExecutorShape.

Context {Kw : Type}.
Variable host_spawn :
  environ -> command -> bool -> bool -> bool -> Kw -> host_result.

(** X4. Every call is a run of environment reads followed by one of two
    things. Either nothing more: the permission block has raised
    [PermissionError] or [IndexError], and nothing was logged or spawned.
    Or exactly a debug log of the command, one call of [subprocess.run]
    with the arguments given, and one closing log, which is the debug log
    of the return code when the call returns and an error log when it
    raises. *)
Theorem safe_run_trace_shape env cmd check capture_output text shell kwargs :
  let call :=
    safe_run host_spawn env cmd check capture_output text shell kwargs in
  exists reads,
    forallb is_any_env_get reads = true /\
    ((trace call = reads /\
      ((exists msg, result call = Raise (PermissionError msg)) \/
       (exists msg, result call = Raise (IndexError msg))))
     \/
     (exists lvl line,
         trace call
         = reads ++ [EvLog Debug ("Executing: " +:+ cmd_str_of cmd);
                     EvSpawn cmd check capture_output text shell;
                     EvLog lvl line]
         /\ match result call with
            | Return r =>
                lvl = Debug /\
                line = "Command completed with return code: "
                       +:+ pretty (returncode r)
            | Raise _ => lvl = Error
            end)).
Proof.
  intros call. subst call.
  pose proof (check_only_reads env cmd shell) as Hreads.
  pose proof (check_result_cases env cmd shell) as Hres.
  destruct (check_shell_permission env cmd shell) as [tr r] eqn:Hcheck.
  unfold trace, result in Hreads, Hres. simpl in Hreads, Hres.
  exists tr. split; [exact Hreads|].
  destruct Hres as [->|[[msg ->]|[msg ->]]].
  - right.
    rewrite (safe_run_passed host_spawn _ _ _ _ _ _ _ _ Hcheck).
    destruct (run_logged_cases host_spawn env cmd check capture_output text
                               shell kwargs)
      as [(rc & out & err & _ & _ & ->)
         |[(rc & out & err & _ & _ & _ & ->)|(m & _ & ->)]];
      unfold trace, result; simpl fst; simpl snd;
      eexists _, _; (split; [reflexivity|]); auto.
  - left. rewrite (safe_run_refused host_spawn _ _ _ _ _ _ _ _ _ Hcheck).
    split; [reflexivity|]. left. eauto.
  - left. rewrite (safe_run_refused host_spawn _ _ _ _ _ _ _ _ _ Hcheck).
    split; [reflexivity|]. right. eauto.
Qed.

End ExecutorShape.

(** ** The allowed list *)

Lemma py_split_token (s t : string) :
  t ∈ py_split s -> t <> EmptyString /\ has_space t = false.
Proof.
  revert t. induction s as [|a s IH]; intros t Hin; simpl in Hin.
  - apply elem_of_nil in Hin. destruct Hin.
  - destruct (is_space a) eqn:Ha; [auto|].
    destruct s as [|b s'].
    + apply list_elem_of_singleton in Hin as ->.
      split; [discriminate|]. simpl. now rewrite Ha.
    + destruct (is_space b) eqn:Hb.
      * apply elem_of_cons in Hin as [->|Hin]; [|auto].
        split; [discriminate|]. simpl. now rewrite Ha.
      * destruct (py_split (String b s')) as [|tok toks] eqn:Hsplit.
        -- apply list_elem_of_singleton in Hin as ->.
           split; [discriminate|]. simpl. now rewrite Ha.
        -- apply elem_of_cons in Hin as [->|Hin].
           ++ split; [discriminate|]. simpl. rewrite Ha. simpl.
              apply IH. left.
           ++ apply IH. right. exact Hin.
Qed.

Lemma py_split_on_nonnil (sep : ascii) (s : string) : py_split_on sep s <> [].
Proof.
  destruct s as [|a s]; simpl; [discriminate|].
  destruct (Ascii.eqb a sep); [discriminate|].
  destruct (py_split_on sep s); discriminate.
Qed.

Lemma py_split_on_piece (sep : ascii) (s p : string) :
  p ∈ py_split_on sep s -> has_char sep p = false.
Proof.
  revert p. induction s as [|a s IH]; intros p Hin; simpl in Hin.
  - apply list_elem_of_singleton in Hin as ->. reflexivity.
  - destruct (Ascii.eqb a sep) eqn:Ha.
    + apply elem_of_cons in Hin as [->|Hin]; [reflexivity|auto].
    + destruct (py_split_on sep s) as [|piece pieces] eqn:Hsplit.
      * apply list_elem_of_singleton in Hin as ->. simpl. now rewrite Ha.
      * apply elem_of_cons in Hin as [->|Hin].
        -- simpl. rewrite Ha. simpl. apply IH. left.
        -- apply IH. right. exact Hin.
Qed.

Lemma py_split_on_app (sep : ascii) (s1 s2 : string) :
  py_split_on sep (s1 +:+ String sep s2)
  = py_split_on sep s1 ++ py_split_on sep s2.
Proof.
  induction s1 as [|a s1 IH].
  - change (py_split_on sep (String sep s2)
            = [EmptyString] ++ py_split_on sep s2).
    simpl. now rewrite Ascii.eqb_refl.
  - change (py_split_on sep (String a (s1 +:+ String sep s2))
            = py_split_on sep (String a s1) ++ py_split_on sep s2).
    simpl. destruct (Ascii.eqb a sep).
    + now rewrite IH.
    + rewrite IH. pose proof (py_split_on_nonnil sep s1) as Hne.
      destruct (py_split_on sep s1); [contradiction|reflexivity].
Qed.

Lemma py_lstrip_has_char (c : ascii) (s : string) :
  has_char c (py_lstrip s) = true -> has_char c s = true.
Proof.
  induction s as [|a s IH]; simpl; [auto|].
  destruct (is_space a); [|auto].
  intros H. rewrite (IH H). apply orb_true_r.
Qed.

Lemma py_rstrip_has_char (c : ascii) (s : string) :
  has_char c (py_rstrip s) = true -> has_char c s = true.
Proof.
  induction s as [|a s IH]; simpl; [auto|].
  destruct (py_rstrip s) as [|b r].
  - destruct (is_space a); simpl; [discriminate|].
    rewrite orb_false_r. intros ->. reflexivity.
  - simpl in *. intros [->|H]%orb_prop; [reflexivity|].
    rewrite (IH H). apply orb_true_r.
Qed.

Lemma py_rstrip_idem (s : string) : py_rstrip (py_rstrip s) = py_rstrip s.
Proof.
  induction s as [|a s IH]; simpl; [reflexivity|].
  destruct (py_rstrip s) as [|b r] eqn:Hr.
  - destruct (is_space a) eqn:Ha; simpl; [reflexivity|]. now rewrite Ha.
  - change (py_rstrip (String a (String b r)) = String a (String b r)).
    simpl in *. now rewrite IH.
Qed.

Lemma py_lstrip_head (s : string) :
  match py_lstrip s with
  | EmptyString => True
  | String a _ => is_space a = false
  end.
Proof.
  induction s as [|a s IH]; simpl; [exact I|].
  destruct (is_space a) eqn:Ha; [exact IH|exact Ha].
Qed.

Lemma py_rstrip_head (a : ascii) (s : string) :
  is_space a = false -> exists r, py_rstrip (String a s) = String a r.
Proof.
  intros Ha. simpl. destruct (py_rstrip s); [rewrite Ha|]; eauto.
Qed.

Lemma py_strip_idem (s : string) : py_strip (py_strip s) = py_strip s.
Proof.
  unfold py_strip. pose proof (py_lstrip_head s) as Hhead.
  destruct (py_lstrip s) as [|a u]; [reflexivity|].
  destruct (py_rstrip_head a u Hhead) as [r Hr].
  rewrite Hr. simpl py_lstrip. rewrite Hhead, <- Hr. apply py_rstrip_idem.
Qed.

Lemma allowed_list_of_app (a b : string) :
  allowed_list_of (a +:+ "," +:+ b) = allowed_list_of a ++ allowed_list_of b.
Proof.
  unfold allowed_list_of.
  change (a +:+ "," +:+ b) with (a +:+ String "," b).
  now rewrite py_split_on_app, filter_app, map_app.
Qed.

(** The permission block passes exactly when the policy authorizes. *)
Lemma check_returns_iff env cmd :
  result (check_shell_permission env cmd true) = Return tt
  <-> shell_authorized env cmd.
Proof.
  split.
  - intros Hres.
    destruct (decide (py_lower (env_value env "ALLOW_SHELL") = "true"))
      as [Hallow|Hno]; [left; exact Hallow|].
    destruct (extracted_name cmd) as [name|] eqn:Hname.
    + destruct (decide (name ∈ allowed_names env)) as [Hin|Hout].
      * right. eauto.
      * rewrite (check_denied env cmd name Hno Hname Hout) in Hres.
        discriminate.
    + rewrite (check_no_name env cmd Hno Hname) in Hres. discriminate.
  - intros Hauth.
    destruct (check_passes env cmd true (fun _ => Hauth)) as (tr & -> & _).
    reflexivity.
Qed.

Lemma py_lower_keeps_space (s : string) :
  has_space s = true -> has_space (py_lower s) = true.
Proof.
  induction s as [|a s IH]; simpl; [auto|].
  intros [Ha|Hs]%orb_prop.
  - assert (Hsame : lower_char a = a).
    { destruct a as [[] [] [] [] [] [] [] []]; try discriminate Ha;
        reflexivity. }
    now rewrite Hsame, Ha.
  - rewrite (IH Hs). apply orb_true_r.
Qed.

Lemma allowed_entry_no_comma (allowed_commands name : string) :
  name ∈ allowed_list_of allowed_commands -> has_char "," name = false.
Proof.
  unfold allowed_list_of.
  intros (c & -> & Hin)%list_elem_of_fmap.
  apply list_elem_of_filter in Hin as [_ Hin].
  destruct (has_char "," (py_strip c)) eqn:Hc; [|reflexivity].
  unfold py_strip in Hc.
  apply py_rstrip_has_char, py_lstrip_has_char in Hc.
  rewrite (py_split_on_piece _ _ _ Hin) in Hc. discriminate.
Qed.

Lemma extracted_name_token (s name : string) :
  extracted_name (CmdStr s) = Some name ->
  name <> EmptyString /\ has_space name = false.
Proof.
  simpl. intros Hhead. apply py_split_token with (s := s).
  destruct (py_split s) as [|tok toks]; [discriminate|].
  injection Hhead as ->. left.
Qed.

(** X5. Every entry of the allowed list is non-empty, has no whitespace at
    either end and has no comma. *)
Theorem allowed_entries_trimmed env name :
  name ∈ allowed_names env ->
  name <> EmptyString /\ py_strip name = name /\ has_char "," name = false.
Proof.
  intros Hin. split; [|split].
  - intros ->. exact (allowed_list_of_no_empty _ Hin).
  - unfold allowed_names, allowed_list_of in Hin.
    apply list_elem_of_fmap in Hin as (c & -> & _). apply py_strip_idem.
  - exact (allowed_entry_no_comma _ _ Hin).
Qed.

(** X6. Appending [",extra"] to [ALLOWED_SHELL_COMMANDS] appends the
    entries of [extra] to the allowed list, so every command the
    permission block let pass before still passes. *)
Theorem appending_entries_keeps_permission env env' extra cmd :
  env_value env' "ALLOW_SHELL" = env_value env "ALLOW_SHELL" ->
  env_value env' "ALLOWED_SHELL_COMMANDS"
  = env_value env "ALLOWED_SHELL_COMMANDS" +:+ "," +:+ extra ->
  allowed_names env' = allowed_names env ++ allowed_list_of extra
  /\ (result (check_shell_permission env cmd true) = Return tt ->
      result (check_shell_permission env' cmd true) = Return tt).
Proof.
  intros Hallow Hallowed.
  assert (Hnames : allowed_names env'
                   = allowed_names env ++ allowed_list_of extra).
  { unfold allowed_names. rewrite Hallowed. apply allowed_list_of_app. }
  split; [exact Hnames|].
  rewrite !check_returns_iff.
  intros [H|(name & Hname & Hin)].
  - left. unfold allow_shell_globally in *. now rewrite Hallow.
  - right. exists name. split; [exact Hname|].
    rewrite Hnames. apply elem_of_app. left. exact Hin.
Qed.

Section ExecutorList.

Context {Kw : Type}.
Variable host_spawn :
  environ -> command -> bool -> bool -> bool -> Kw -> host_result.

(** X7. Without the global permission, a command whose name has a comma
    is refused with [PermissionError] whatever [ALLOWED_SHELL_COMMANDS]
    holds: no entry of the allowed list has a comma. *)
Theorem comma_name_never_allowed env cmd name check capture_output text
        kwargs :
  ~ allow_shell_globally env ->
  extracted_name cmd = Some name ->
  has_char "," name = true ->
  safe_run host_spawn env cmd check capture_output text true kwargs
  = ([ALLOW; ALLOWED], Raise (PermissionError (permission_message name))).
Proof.
  intros Hno Hname Hcomma.
  apply safe_run_refused, check_denied; [exact Hno|exact Hname|].
  intros Hin. rewrite (allowed_entry_no_comma _ _ Hin) in Hcomma.
  discriminate.
Qed.

(** X8. Without the global permission, an allowed list whose entries all
    have whitespace inside authorizes nothing: the name of a string
    command is a single token, so every call with [shell=True] ends in an
    exception before anything is logged or spawned. *)
Theorem multiword_entries_authorize_nothing env cmd check capture_output text
        kwargs :
  ~ allow_shell_globally env ->
  (forall name, name ∈ allowed_names env -> has_space name = true) ->
  let call :=
    safe_run host_spawn env cmd check capture_output text true kwargs in
  trace call = [ALLOW; ALLOWED]
  /\ ((exists msg, result call = Raise (PermissionError msg)) \/
      (exists msg, result call = Raise (IndexError msg))).
Proof.
  intros Hno Hentries call. subst call.
  destruct (extracted_name cmd) as [name|] eqn:Hname.
  - assert (Hout : name ∉ allowed_names env).
    { intros Hin. pose proof (Hentries name Hin) as Hsp.
      destruct cmd as [s|argv].
      - destruct (extracted_name_token s name Hname) as [_ Hnone].
        rewrite Hnone in Hsp. discriminate.
      - simpl in Hname. injection Hname as <-. discriminate. }
    rewrite (safe_run_refused host_spawn _ _ _ _ _ _ _ _ _
               (check_denied env cmd name Hno Hname Hout)).
    split; [reflexivity|]. left. eauto.
  - rewrite (safe_run_refused host_spawn _ _ _ _ _ _ _ _ _
               (check_no_name env cmd Hno Hname)).
    split; [reflexivity|]. right. eauto.
Qed.

(** X9. The value of [ALLOW_SHELL] is compared as it is, untrimmed: a
    value with whitespace anywhere, such as ["true "], does not give the
    global permission, and a command that is not on the allowed list is
    refused. *)
Theorem allow_shell_not_trimmed env cmd name check capture_output text
        kwargs :
  has_space (env_value env "ALLOW_SHELL") = true ->
  extracted_name cmd = Some name ->
  name ∉ allowed_names env ->
  ~ allow_shell_globally env
  /\ safe_run host_spawn env cmd check capture_output text true kwargs
     = ([ALLOW; ALLOWED], Raise (PermissionError (permission_message name))).
Proof.
  intros Hsp Hname Hout.
  assert (Hno : ~ allow_shell_globally env).
  { unfold allow_shell_globally. intros Heq.
    apply py_lower_keeps_space in Hsp. rewrite Heq in Hsp. discriminate. }
  split; [exact Hno|].
  apply safe_run_refused, check_denied; assumption.
Qed.

End ExecutorList.

(** ** More on the logger facade *)

Lemma contains_prepend (needle s a : string) :
  py_contains needle s -> py_contains needle (a +:+ s).
Proof.
  intros (pre & post & ->). exists (a +:+ pre), post.
  now rewrite append_assoc.
Qed.

Lemma contains_append (needle s b : string) :
  py_contains needle s -> py_contains needle (s +:+ b).
Proof.
  intros (pre & post & ->). exists pre, (post +:+ b).
  now rewrite !append_assoc.
Qed.

Section LoggerMore.

Context {V : Type}.
Variable py_format : V -> string.

Lemma pair_in_pairs_after k v (kvs : list (string * V)) :
  (k, v) ∈ kvs ->
  py_contains (k +:+ "=" +:+ py_format v) (pairs_after py_format kvs).
Proof.
  induction kvs as [|[k' v'] kvs IH]; intros Hin.
  - apply elem_of_nil in Hin. destruct Hin.
  - change (pairs_after py_format ((k', v') :: kvs))
      with (" | " +:+ k' +:+ "=" +:+ py_format v'
            +:+ pairs_after py_format kvs).
    apply elem_of_cons in Hin as [Heq|Hin].
    + injection Heq as -> ->.
      exists " | ", (pairs_after py_format kvs).
      now rewrite !append_assoc.
    + apply (contains_prepend _ _ " | "), (contains_prepend _ _ k'),
        (contains_prepend _ _ "="), (contains_prepend _ _ (py_format v')).
      auto.
Qed.

(** X10. The line given to the logger starts with the message, and for
    every pair of the context it contains [key=value]. *)
Theorem context_pairs_in_line env message level stderr kwargs k v :
  (k, v) ∈ kwargs ->
  exists lvl line,
    dispatched (trace (user_log py_format env message level stderr kwargs))
    = [(lvl, line)]
    /\ py_startswith message line
    /\ py_contains (k +:+ "=" +:+ py_format v) line.
Proof.
  intros Hin. rewrite user_log_line. unfold trace. simpl fst.
  exists (default Info (log_methods !! py_lower level)),
         (context_line py_format message kwargs).
  split; [destruct (bool_decide _); reflexivity|].
  destruct kwargs as [|[k0 v0] kvs]; [apply elem_of_nil in Hin; destruct Hin|].
  change (context_line py_format message ((k0, v0) :: kvs))
    with (message +:+ " " +:+ "["
          +:+ (k0 +:+ "=" +:+ py_format v0 +:+ pairs_after py_format kvs)
          +:+ "]").
  split; [eexists; reflexivity|].
  apply (contains_prepend _ _ message), (contains_prepend _ _ " "),
    (contains_prepend _ _ "["), contains_append.
  apply elem_of_cons in Hin as [Heq|Hin].
  - injection Heq as -> ->.
    exists EmptyString, (pairs_after py_format kvs).
    now rewrite !append_assoc.
  - apply (contains_prepend _ _ k0), (contains_prepend _ _ "="),
      (contains_prepend _ _ (py_format v0)), pair_in_pairs_after, Hin.
Qed.

(** A call of [user_log] returns; it calls the logger once, spawns
    nothing and does not read the shell variables. *)
Lemma user_log_returns env message level stderr kwargs :
  exists tr,
    user_log py_format env message level stderr kwargs = (tr, Return tt)
    /\ dispatched tr
       = [(default Info (log_methods !! py_lower level),
           context_line py_format message kwargs)]
    /\ spawn_count tr = 0
    /\ consulted "ALLOW_SHELL" tr = false
    /\ consulted "ALLOWED_SHELL_COMMANDS" tr = false
    /\ (console tr <> [] ->
        py_lower (env_value env "LOG_TO_STDOUT") = "true").
Proof.
  rewrite user_log_line. eexists. split; [reflexivity|]. simpl.
  destruct (decide (py_lower (env_value env "LOG_TO_STDOUT") = "true"))
    as [Hon|Hoff].
  - rewrite (bool_decide_eq_true_2 _ Hon). repeat split; auto.
  - rewrite (bool_decide_eq_false_2 _ Hoff). repeat split; auto.
    intros H. destruct H. reflexivity.
Qed.

End LoggerMore.

(** ** Composition of computations *)

Lemma bind_return {A B} (tr : list event) (a : A) (k : A -> M B) :
  bind (tr, Return a) k = (tr ++ trace (k a), result (k a)).
Proof. unfold bind, trace, result. destruct (k a). reflexivity. Qed.

Lemma dispatched_app (tr1 tr2 : list event) :
  dispatched (tr1 ++ tr2) = dispatched tr1 ++ dispatched tr2.
Proof.
  induction tr1 as [|[] tr1 IH]; simpl; auto. now rewrite IH.
Qed.

Lemma console_app (tr1 tr2 : list event) :
  console (tr1 ++ tr2) = console tr1 ++ console tr2.
Proof.
  induction tr1 as [|[] tr1 IH]; simpl; auto. now rewrite IH.
Qed.

Lemma spawn_count_app (tr1 tr2 : list event) :
  spawn_count (tr1 ++ tr2) = spawn_count tr1 + spawn_count tr2.
Proof. unfold spawn_count. now rewrite filter_app, length_app. Qed.

Lemma level_info : default Info (log_methods !! py_lower "info") = Info.
Proof. vm_compute. reflexivity. Qed.

Lemma level_debug : default Info (log_methods !! py_lower "debug") = Debug.
Proof. vm_compute. reflexivity. Qed.

Lemma level_warning :
  default Info (log_methods !! py_lower "warning") = Warning.
Proof. vm_compute. reflexivity. Qed.

Lemma level_error : default Info (log_methods !! py_lower "error") = Error.
Proof. vm_compute. reflexivity. Qed.

Lemma try_except_return {A} (tr : list event) (a : A) (h : exn -> M A) :
  try_except (tr, Return a) h = (tr, Return a).
Proof. reflexivity. Qed.

Lemma try_except_raise {A} (tr : list event) (e : exn) (h : exn -> M A) :
  try_except (tr, Raise e) h = (tr ++ trace (h e), result (h e)).
Proof. unfold try_except, trace, result. destruct (h e). reflexivity. Qed.

Lemma bind_raise {A B} (tr : list event) (e : exn) (k : A -> M B) :
  bind (tr, Raise e) k = (tr, Raise e).
Proof. reflexivity. Qed.

Ltac run_m :=
  cbn [bind try_except ret raise emit trace result fst snd].

Ltac caller_observe :=
  unfold trace, result, ret; simpl fst; simpl snd;
  rewrite ?app_nil_r, ?spawn_count_app, ?consulted_app, ?dispatched_app.

(** A call of [user_log] without the [stderr] flag and at a level that is
    neither error nor critical prints nothing to standard error. *)
Lemma user_log_no_stderr {V} (fmt : V -> string) env message level kwargs :
  is_failure_level (default Info (log_methods !! py_lower level)) = false ->
  forall line,
    (Stderr, line)
    ∉ console (trace (user_log fmt env message level false kwargs)).
Proof.
  intros Hlvl line. rewrite user_log_line. unfold trace. simpl fst.
  cbn [console]. rewrite Hlvl. simpl.
  destruct (bool_decide _); simpl.
  - intros Hin. apply list_elem_of_singleton in Hin. discriminate.
  - apply not_elem_of_nil.
Qed.

Lemma for_each_debug_logs env (prefix : string) (tasks : list pyval) :
  exists tr,
    for_each tasks
      (fun task =>
         user_log py_format_val env (prefix +:+ py_format_val task) "debug"
                  false [])
    = (tr, Return tt)
    /\ dispatched tr
       = map (fun task => (Debug, prefix +:+ py_format_val task)) tasks
    /\ spawn_count tr = 0
    /\ (forall line, (Stderr, line) ∉ console tr).
Proof.
  induction tasks as [|task tasks (tr & IH & D & S & C)].
  - exists []. repeat split. intros line. apply not_elem_of_nil.
  - cbn [for_each].
    pose proof (user_log_no_stderr py_format_val env
                  (prefix +:+ py_format_val task) "debug" []
                  ltac:(rewrite level_debug; reflexivity)) as C1.
    destruct (user_log_returns py_format_val env
                (prefix +:+ py_format_val task) "debug" false [])
      as (t1 & E1 & D1 & S1 & _).
    rewrite E1 in C1 |- *. rewrite level_debug in D1.
    rewrite IH. run_m. eexists. split; [reflexivity|].
    rewrite dispatched_app, spawn_count_app, console_app, D1, D, S1, S.
    repeat split. intros line [H|H]%elem_of_app.
    + exact (C1 line H).
    + exact (C line H).
Qed.

(** ** The callers *)

Section CallerFacts.

Variable host_spawn :
  environ -> command -> bool -> bool -> bool -> unit -> host_result.
Variable called_process_str : Z -> command -> string.

(** A direct call (no shell) of [safe_run] with [check=True], by what the
    host answers: the [CompletedProcess] on exit code 0, and otherwise the
    exception, whose text is the host's or that of the
    [CalledProcessError]. In every case one process is spawned, two lines
    are logged and the shell variables are not read. *)
Lemma checked_direct_call env argv capture_output text :
  exists tr,
    spawn_count tr = 1
    /\ consulted "ALLOW_SHELL" tr = false
    /\ consulted "ALLOWED_SHELL_COMMANDS" tr = false
    /\ console tr = []
    /\ List.length (dispatched tr) = 2
    /\ match host_spawn env (CmdList argv) capture_output text false tt with
       | Exited rc out err =>
           if (rc =? 0)%Z
           then safe_run host_spawn env (CmdList argv) true capture_output
                         text false tt
                = (tr, Return (mkCompleted (CmdList argv) rc out err))
           else exists e,
               safe_run host_spawn env (CmdList argv) true capture_output
                        text false tt = (tr, Raise e)
               /\ exn_str called_process_str e
                  = called_process_str rc (CmdList argv)
       | SpawnFailed msg =>
           exists e,
             safe_run host_spawn env (CmdList argv) true capture_output
                      text false tt = (tr, Raise e)
             /\ exn_str called_process_str e = msg
       end.
Proof.
  rewrite (safe_run_passed host_spawn env (CmdList argv) true capture_output
                           text false tt [] (check_no_shell env _)).
  simpl app.
  destruct (host_spawn env (CmdList argv) capture_output text false tt)
    as [rc out err|msg] eqn:Hhost.
  - destruct (rc =? 0)%Z eqn:Hrc.
    + rewrite (run_logged_returned host_spawn _ _ true _ _ _ _ _ _ _ Hhost)
        by (rewrite Hrc; reflexivity).
      eexists. repeat split; cycle 5; [reflexivity|reflexivity..].
    + apply Z.eqb_neq in Hrc.
      rewrite (run_logged_failed host_spawn _ _ _ _ _ _ _ _ _ Hhost Hrc).
      eexists. repeat split; cycle 5;
        [eexists; split; reflexivity|reflexivity..].
  - rewrite (run_logged_not_created host_spawn _ _ _ _ _ _ _ _ Hhost).
    eexists. repeat split; cycle 5;
      [eexists; split; reflexivity|reflexivity..].
Qed.

(** X11. [collect_metrics] never raises. It runs [git log] once, directly
    and under [check], without reading the shell variables; on exit code 0
    it returns the captured output after the success log, and on any
    failure of [safe_run] (a non-zero exit or a process that could not be
    created) it returns [None] after an error log with the exception's
    text. *)
Theorem collect_metrics_never_raises env :
  let git := CmdList ["git"; "log"; "--oneline"; "-n"; "10"] in
  let call := collect_metrics host_spawn called_process_str env in
  spawn_count (trace call) = 1
  /\ consulted "ALLOW_SHELL" (trace call) = false
  /\ consulted "ALLOWED_SHELL_COMMANDS" (trace call) = false
  /\ match host_spawn env git true true false tt with
     | Exited rc out err =>
         if (rc =? 0)%Z
         then result call = Return out
              /\ last (dispatched (trace call))
                 = Some (Info, "Metrics collected successfully [count=10]")
         else result call = Return None
              /\ last (dispatched (trace call))
                 = Some (Error, "Failed to collect metrics: "
                                +:+ called_process_str rc git)
     | SpawnFailed msg =>
         result call = Return None
         /\ last (dispatched (trace call))
            = Some (Error, "Failed to collect metrics: " +:+ msg)
     end.
Proof.
  intros git call. subst git call. unfold collect_metrics.
  destruct (checked_direct_call env ["git"; "log"; "--oneline"; "-n"; "10"]
                                true true)
    as (tr & S0 & A0 & B0 & _ & _ & Hcase).
  destruct (user_log_returns py_format_val env
              "Starting metrics collection..." "info" false [])
    as (t1 & -> & D1 & S1 & A1 & B1 & _).
  destruct (user_log_returns py_format_val env
              "Metrics collected successfully" "info" false
              [("count", VInt 10)])
    as (t2 & -> & D2 & S2 & A2 & B2 & _).
  rewrite level_info in D2.
  destruct (host_spawn env (CmdList ["git"; "log"; "--oneline"; "-n"; "10"])
                       true true false tt) as [rc out err|msg];
    [destruct (rc =? 0)%Z|].
  - rewrite Hcase. run_m. caller_observe.
    rewrite S0, S1, S2, A0, A1, A2, B0, B1, B2, D2.
    repeat split; try reflexivity.
    rewrite !app_assoc. apply last_snoc.
  - destruct Hcase as (e & -> & Hstr). run_m.
    destruct (user_log_returns py_format_val env
                ("Failed to collect metrics: "
                 +:+ exn_str called_process_str e) "error" false [])
      as (t3 & -> & D3 & S3 & A3 & B3 & _).
    rewrite level_error, Hstr in D3. run_m. caller_observe.
    rewrite S0, S1, S3, A0, A1, A3, B0, B1, B3, D3.
    repeat split; try reflexivity.
    rewrite !app_assoc. apply last_snoc.
  - destruct Hcase as (e & -> & Hstr). run_m.
    destruct (user_log_returns py_format_val env
                ("Failed to collect metrics: "
                 +:+ exn_str called_process_str e) "error" false [])
      as (t3 & -> & D3 & S3 & A3 & B3 & _).
    rewrite level_error, Hstr in D3. run_m. caller_observe.
    rewrite S0, S1, S3, A0, A1, A3, B0, B1, B3, D3.
    repeat split; try reflexivity.
    rewrite !app_assoc. apply last_snoc.
Qed.

Lemma collect_metrics_returns env :
  exists tr,
    collect_metrics host_spawn called_process_str env
    = (tr,
       Return
         match host_spawn env
                          (CmdList ["git"; "log"; "--oneline"; "-n"; "10"])
                          true true false tt with
         | Exited rc out _ => if (rc =? 0)%Z then out else None
         | SpawnFailed _ => None
         end).
Proof.
  unfold collect_metrics.
  destruct (checked_direct_call env ["git"; "log"; "--oneline"; "-n"; "10"]
                                true true) as (tr & _ & _ & _ & _ & _ & Hcase).
  destruct (user_log_returns py_format_val env
              "Starting metrics collection..." "info" false [])
    as (t1 & -> & _).
  destruct (user_log_returns py_format_val env
              "Metrics collected successfully" "info" false
              [("count", VInt 10)]) as (t2 & -> & _).
  destruct (host_spawn env (CmdList ["git"; "log"; "--oneline"; "-n"; "10"])
                       true true false tt) as [rc out err|msg];
    [destruct (rc =? 0)%Z|].
  - rewrite Hcase. run_m. eexists. reflexivity.
  - destruct Hcase as (e & -> & _). run_m.
    destruct (user_log_returns py_format_val env
                ("Failed to collect metrics: "
                 +:+ exn_str called_process_str e) "error" false [])
      as (t3 & -> & _).
    run_m. eexists. reflexivity.
  - destruct Hcase as (e & -> & _). run_m.
    destruct (user_log_returns py_format_val env
                ("Failed to collect metrics: "
                 +:+ exn_str called_process_str e) "error" false [])
      as (t3 & -> & _).
    run_m. eexists. reflexivity.
Qed.

(** X12. [display_dashboard] returns normally whatever the host does, and
    its last log line is ["Dashboard ready"] exactly when [git log] exits
    with code 0 and a non-empty captured output; otherwise (a failure, or a
    success with empty or no output) it is the warning
    ["Dashboard unavailable"]. *)
Theorem display_dashboard_ready_iff env :
  let call := display_dashboard host_spawn called_process_str env in
  let ready :=
    match host_spawn env (CmdList ["git"; "log"; "--oneline"; "-n"; "10"])
                     true true false tt with
    | Exited rc (Some s) _ => (rc =? 0)%Z && py_truthy s
    | _ => false
    end in
  result call = Return tt
  /\ last (dispatched (trace call))
     = Some (if ready then (Info, "Dashboard ready")
             else (Warning, "Dashboard unavailable")).
Proof.
  intros call ready. subst call ready. unfold display_dashboard.
  destruct (collect_metrics_returns env) as (tr & ->).
  destruct (user_log_returns py_format_val env
              "Displaying metrics dashboard..." "info" false [])
    as (t1 & -> & _).
  destruct (user_log_returns py_format_val env "Dashboard ready" "info"
                             false []) as (t2 & E2 & D2 & _).
  destruct (user_log_returns py_format_val env "Dashboard unavailable"
                             "warning" false []) as (t3 & E3 & D3 & _).
  rewrite level_info in D2. rewrite level_warning in D3.
  run_m.
  destruct (host_spawn env (CmdList ["git"; "log"; "--oneline"; "-n"; "10"])
                       true true false tt) as [rc [s|] err|msg];
    [destruct (rc =? 0)%Z; [destruct s as [|a s]|]|destruct (rc =? 0)%Z|];
    cbn [py_truthy_opt py_truthy andb];
    rewrite ?E2, ?E3; run_m; rewrite !dispatched_app, ?D2, ?D3;
    (split; [reflexivity|]); rewrite !app_assoc; apply last_snoc.
Qed.

(** X13. [run_validation_suite] never raises: it runs [python3 --version]
    once, directly, without reading the shell variables, and returns
    [True] exactly when the process exits with code 0. *)
Theorem run_validation_suite_result env :
  let call := run_validation_suite host_spawn called_process_str env in
  result call
  = Return match host_spawn env (CmdList ["python3"; "--version"])
                            true true false tt with
           | Exited rc _ _ => (rc =? 0)%Z
           | SpawnFailed _ => false
           end
  /\ spawn_count (trace call) = 1
  /\ consulted "ALLOW_SHELL" (trace call) = false
  /\ consulted "ALLOWED_SHELL_COMMANDS" (trace call) = false.
Proof.
  intros call. subst call. unfold run_validation_suite.
  destruct (checked_direct_call env ["python3"; "--version"] true true)
    as (tr & S0 & A0 & B0 & _ & _ & Hcase).
  destruct (user_log_returns py_format_val env "Running validation suite..."
                             "info" false [])
    as (t1 & -> & _ & S1 & A1 & B1 & _).
  destruct (user_log_returns py_format_val env "Validation suite completed"
                             "info" false [])
    as (t2 & -> & _ & S2 & A2 & B2 & _).
  destruct (host_spawn env (CmdList ["python3"; "--version"]) true true false
                       tt) as [rc out err|msg];
    [destruct (rc =? 0)%Z|].
  - rewrite Hcase. run_m. caller_observe.
    rewrite S0, S1, S2, A0, A1, A2, B0, B1, B2. repeat split.
  - destruct Hcase as (e & -> & _). run_m.
    destruct (user_log_returns py_format_val env
                ("Validation suite failed: "
                 +:+ exn_str called_process_str e) "error" false [])
      as (t3 & -> & _ & S3 & A3 & B3 & _).
    run_m. caller_observe.
    rewrite S0, S1, S3, A0, A1, A3, B0, B1, B3. repeat split.
  - destruct Hcase as (e & -> & _). run_m.
    destruct (user_log_returns py_format_val env
                ("Validation suite failed: "
                 +:+ exn_str called_process_str e) "error" false [])
      as (t3 & -> & _ & S3 & A3 & B3 & _).
    run_m. caller_observe.
    rewrite S0, S1, S3, A0, A1, A3, B0, B1, B3. repeat split.
Qed.

(** X14. [accelerate_tasks] returns [True] for every task list. It logs
    the count of the tasks, then one debug line per task in the order of
    the list, then the closing line; it spawns nothing and prints nothing
    to standard error. *)
Theorem accelerate_tasks_logs_each env task_list :
  let call := accelerate_tasks called_process_str env task_list in
  result call = Return true
  /\ dispatched (trace call)
     = (Info, "Accelerating tasks... [count="
              +:+ pretty (Z.of_nat (List.length task_list)) +:+ "]")
       :: map (fun task => (Debug, "Accelerating task: "
                                   +:+ py_format_val task)) task_list
       ++ [(Info, "All tasks accelerated")]
  /\ spawn_count (trace call) = 0
  /\ (forall line, (Stderr, line) ∉ console (trace call)).
Proof.
  intros call. subst call. unfold accelerate_tasks.
  pose proof (user_log_no_stderr py_format_val env "Accelerating tasks..."
                "info" [("count", VInt (Z.of_nat (List.length task_list)))]
                ltac:(rewrite level_info; reflexivity)) as C1.
  pose proof (user_log_no_stderr py_format_val env "All tasks accelerated"
                "info" [] ltac:(rewrite level_info; reflexivity)) as C3.
  destruct (user_log_returns py_format_val env "Accelerating tasks..." "info"
              false [("count", VInt (Z.of_nat (List.length task_list)))])
    as (t1 & E1 & D1 & S1 & _).
  destruct (for_each_debug_logs env "Accelerating task: " task_list)
    as (t2 & E2 & D2 & S2 & C2).
  destruct (user_log_returns py_format_val env "All tasks accelerated" "info"
                             false []) as (t3 & E3 & D3 & S3 & _).
  rewrite E1 in C1 |- *. rewrite E3 in C3 |- *. rewrite E2.
  rewrite level_info in D1, D3. run_m. unfold trace in C1, C3.
  simpl fst in C1, C3.
  rewrite !dispatched_app, !spawn_count_app, !console_app, D1, D2, D3, S1, S2,
    S3, app_nil_r.
  cbn [console]. rewrite app_nil_r.
  repeat split; try reflexivity.
  - cbn [context_line pairs_after py_format_val].
    rewrite append_empty_r, !append_assoc. reflexivity.
  - intros line [H|[H|H]%elem_of_app]%elem_of_app;
      [exact (C1 line H)|exact (C2 line H)|exact (C3 line H)].
Qed.

End CallerFacts.

(** ** The further theorems at concrete calls *)

Lemma spawn_failure_propagates_witness :
  result (safe_run demo_host ∅ (CmdList ["nosuch"; "-v"]) false false true
                   false tt)
  = Raise (SpawnError "[Errno 2] No such file or directory").
Proof.
  assert (Hauth : false = true -> shell_authorized ∅ (CmdList ["nosuch"; "-v"]))
    by discriminate.
  apply (spawn_failure_propagates demo_host ∅ (CmdList ["nosuch"; "-v"]) false
           false true false tt "[Errno 2] No such file or directory" Hauth
           eq_refl).
Defined.

Lemma zero_exit_ignores_check_witness :
  result (safe_run demo_host ∅ (CmdList ["echo"; "hi"]) true true true false
                   tt)
  = Return (mkCompleted (CmdList ["echo"; "hi"]) 0 (Some "hi")
                        (Some EmptyString)).
Proof.
  assert (Hauth : false = true -> shell_authorized ∅ (CmdList ["echo"; "hi"]))
    by discriminate.
  apply (zero_exit_ignores_check demo_host ∅ (CmdList ["echo"; "hi"]) true
           true false tt (Some "hi") (Some EmptyString) Hauth eq_refl true).
Defined.

Lemma allowed_entries_trimmed_witness :
  "echo" ∈ allowed_names {[ "ALLOWED_SHELL_COMMANDS" := " echo , ls" ]}
  /\ py_strip "echo" = "echo".
Proof.
  assert (Hin : "echo"
                ∈ allowed_names {[ "ALLOWED_SHELL_COMMANDS" := " echo , ls" ]}).
  { apply list_elem_of_In. vm_compute. left. reflexivity. }
  split; [exact Hin|].
  apply (allowed_entries_trimmed _ "echo" Hin).
Defined.

Lemma appending_entries_keeps_permission_witness :
  allowed_names {[ "ALLOWED_SHELL_COMMANDS" := "echo,ls" ]}
  = allowed_names {[ "ALLOWED_SHELL_COMMANDS" := "echo" ]}
    ++ allowed_list_of "ls".
Proof.
  assert (Hallow :
            env_value {[ "ALLOWED_SHELL_COMMANDS" := "echo,ls" ]} "ALLOW_SHELL"
            = env_value {[ "ALLOWED_SHELL_COMMANDS" := "echo" ]} "ALLOW_SHELL")
    by (vm_compute; reflexivity).
  assert (Hallowed :
            env_value {[ "ALLOWED_SHELL_COMMANDS" := "echo,ls" ]}
                      "ALLOWED_SHELL_COMMANDS"
            = env_value {[ "ALLOWED_SHELL_COMMANDS" := "echo" ]}
                        "ALLOWED_SHELL_COMMANDS" +:+ "," +:+ "ls")
    by (vm_compute; reflexivity).
  apply (appending_entries_keeps_permission
           {[ "ALLOWED_SHELL_COMMANDS" := "echo" ]}
           {[ "ALLOWED_SHELL_COMMANDS" := "echo,ls" ]} "ls"
           (CmdStr "echo hi") Hallow Hallowed).
Defined.

Lemma comma_name_never_allowed_witness :
  safe_run demo_host {[ "ALLOWED_SHELL_COMMANDS" := "a,b" ]} (CmdStr "a,b c")
           true false true true tt
  = ([ALLOW; ALLOWED], Raise (PermissionError (permission_message "a,b"))).
Proof.
  assert (Hno : ~ allow_shell_globally {[ "ALLOWED_SHELL_COMMANDS" := "a,b" ]}).
  { intros H. vm_compute in H. discriminate H. }
  apply (comma_name_never_allowed demo_host _ (CmdStr "a,b c") "a,b" true
           false true tt Hno eq_refl eq_refl).
Defined.

Lemma multiword_entries_authorize_nothing_witness :
  trace (safe_run demo_host
                  {[ "ALLOWED_SHELL_COMMANDS" := "git status, ls -l" ]}
                  (CmdStr "git status") true false true true tt)
  = [ALLOW; ALLOWED].
Proof.
  assert (Hno : ~ allow_shell_globally
                  {[ "ALLOWED_SHELL_COMMANDS" := "git status, ls -l" ]}).
  { intros H. vm_compute in H. discriminate H. }
  assert (Hentries :
            forall name,
              name ∈ allowed_names
                       {[ "ALLOWED_SHELL_COMMANDS" := "git status, ls -l" ]} ->
              has_space name = true).
  { intros name H. apply list_elem_of_In in H. vm_compute in H.
    destruct H as [<-|[<-|[]]]; reflexivity. }
  apply (multiword_entries_authorize_nothing demo_host _ (CmdStr "git status")
           true false true tt Hno Hentries).
Defined.

Lemma allow_shell_not_trimmed_witness :
  safe_run demo_host {[ "ALLOW_SHELL" := "true " ]} (CmdStr "ls") true false
           true true tt
  = ([ALLOW; ALLOWED], Raise (PermissionError (permission_message "ls"))).
Proof.
  assert (Hout : "ls" ∉ allowed_names {[ "ALLOW_SHELL" := "true " ]}).
  { intros H. apply list_elem_of_In in H. vm_compute in H. exact H. }
  assert (Hsp : has_space (env_value {[ "ALLOW_SHELL" := "true " ]}
                                     "ALLOW_SHELL") = true)
    by (vm_compute; reflexivity).
  apply (allow_shell_not_trimmed demo_host {[ "ALLOW_SHELL" := "true " ]}
           (CmdStr "ls") "ls" true false true tt Hsp eq_refl Hout).
Defined.

Lemma context_pairs_in_line_witness :
  exists lvl line,
    dispatched (trace (user_log id ∅ "Task completed" "info" false
                                [("task_id", "123"); ("status", "success")]))
    = [(lvl, line)]
    /\ py_startswith "Task completed" line
    /\ py_contains "status=success" line.
Proof.
  assert (Hin : ("status", "success")
                ∈ [("task_id", "123"); ("status", "success")]).
  { apply list_elem_of_In. simpl. auto. }
  apply (context_pairs_in_line id ∅ "Task completed" "info" false
           [("task_id", "123"); ("status", "success")] "status" "success"
           Hin).
Defined.
